(** * RaceMates: the pro-driver list cache and the telemetry listener

    A shallow embedding of [prolist_manager.py], [config_manager.py] and
    [telemetry_listener.py].  Python values that flow through the program
    are modelled by [pyval]; exceptions by the [result] type; functions
    that touch the disk, the network, the clock or the Qt signals run in
    the state-and-exception monad [Py] over [world]. *)

From Stdlib Require Import ZArith QArith Ascii String List Lia Bool.
From stdpp Require Import base gmap strings list fin_maps.
Import ListNotations.
Close Scope Q_scope.
Local Open Scope string_scope.
Local Open Scope list_scope.
Set Warnings "-register-all".

(** ** Python values *)

(** The values the program reads from JSON documents and from the
    telemetry session info.  Dictionaries have string keys (JSON objects,
    YAML mappings) and are kept as association lists in document order.
    Floating-point numbers are not part of [pyval]; the one float the
    program computes with, the refresh timestamp, is modelled in
    [cfgval] below as an exact rational. *)
Inductive pyval : Type :=
| PyNone
| PyBool (b : bool)
| PyInt (z : Z)
| PyStr (s : string)
| PyList (items : list pyval)
| PyDict (entries : list (string * pyval)).

(** Exception classes that occur in the program. *)
Inductive exn : Type :=
| KeyError | ValueError | TypeError | AttributeError
| OSError | HTTPError | ConnectionError | JSONDecodeError | OverflowError.

(** [subclass e c]: an exception of class [e] is caught by [except c]. *)
Definition subclass (e c : exn) : bool :=
  match e, c with
  | KeyError, KeyError | ValueError, ValueError | TypeError, TypeError
  | AttributeError, AttributeError | OSError, OSError
  | HTTPError, HTTPError | ConnectionError, ConnectionError
  | JSONDecodeError, JSONDecodeError | OverflowError, OverflowError => true
  | JSONDecodeError, ValueError => true
  | HTTPError, OSError | ConnectionError, OSError => true
  | _, _ => false
  end.

Inductive result (A : Type) : Type :=
| Ok (a : A)
| Raise (e : exn).
Arguments Ok {A} a.
Arguments Raise {A} e.

Definition rbind {A B} (r : result A) (k : A -> result B) : result B :=
  match r with
  | Ok a => k a
  | Raise e => Raise e
  end.

(** ** Builtins: [str(int)] and [int(str)] *)

Definition digit_char (d : Z) : ascii := ascii_of_N (Z.to_N (48 + d)).

Definition digit_val (c : ascii) : option Z :=
  let n := Z.of_N (N_of_ascii c) in
  if ((48 <=? n) && (n <=? 57))%Z then Some (n - 48)%Z else None.

(** Decimal digits of a non-negative number, most significant first. *)
Fixpoint digits_of (fuel : nat) (n : Z) (acc : string) : string :=
  match fuel with
  | O => acc
  | S f =>
      let acc' := String (digit_char (n mod 10)) acc in
      if (n <? 10)%Z then acc' else digits_of f (n / 10) acc'
  end.

(** [str(k)] for an integer [k]. *)
Definition str_of_int (z : Z) : string :=
  if (z <? 0)%Z
  then String "-" (digits_of (S (Z.to_nat (Z.log2 (- z)))) (- z) EmptyString)
  else digits_of (S (Z.to_nat (Z.log2 z))) z EmptyString.

(** Whitespace that [int()] strips around a literal: the ASCII blanks
    (space, tab, newline, vertical tab, form feed, carriage return) and,
    above ASCII, the Unicode spaces U+0085 and U+00A0.  The separators
    U+001C to U+001F are not stripped. *)
Definition is_space (c : ascii) : bool :=
  let n := N_of_ascii c in
  ((n =? 32) || ((9 <=? n) && (n <=? 13)) || (n =? 133) || (n =? 160))%N.

Fixpoint lstrip (s : string) : string :=
  match s with
  | EmptyString => EmptyString
  | String c r => if is_space c then lstrip r else s
  end.

Fixpoint rstrip (s : string) : string :=
  match s with
  | EmptyString => EmptyString
  | String c r =>
      match rstrip r with
      | EmptyString => if is_space c then EmptyString else String c EmptyString
      | r' => String c r'
      end
  end.

(** Digits of an integer literal; a single underscore may separate two
    digits. *)
Fixpoint digits_value (s : string) (acc : Z) (after_digit : bool) : option Z :=
  match s with
  | EmptyString => if after_digit then Some acc else None
  | String c r =>
      match digit_val c with
      | Some d => digits_value r (10 * acc + d)%Z true
      | None =>
          if (c =? "_")%char && after_digit
          then digits_value r acc false
          else None
      end
  end.

(** [int(s)] for a string [s]: [None] stands for [ValueError]. *)
Definition int_of_literal (s : string) : option Z :=
  match rstrip (lstrip s) with
  | String "-" r => option_map Z.opp (digits_value r 0%Z false)
  | String "+" r => digits_value r 0%Z false
  | body => digits_value body 0%Z false
  end.

(** [int(v)] *)
Definition py_int (v : pyval) : result Z :=
  match v with
  | PyInt z => Ok z
  | PyBool b => Ok (if b then 1 else 0)%Z
  | PyStr s =>
      match int_of_literal s with
      | Some z => Ok z
      | None => Raise ValueError
      end
  | PyNone | PyList _ | PyDict _ => Raise TypeError
  end.

(** ** Builtins: [repr] and [str] *)

Definition hex_digit (n : N) : ascii :=
  if (n <? 10)%N then ascii_of_N (48 + n) else ascii_of_N (87 + n).

Definition backslash : ascii := ascii_of_N 92.
Definition double_quote : ascii := ascii_of_N 34.
Definition single_quote : ascii := ascii_of_N 39.

Definition repr_char (quote c : ascii) : string :=
  let n := N_of_ascii c in
  if (c =? quote)%char || (c =? backslash)%char
  then String backslash (String c EmptyString)
  else if (n =? 9)%N then String backslash "t"
  else if (n =? 10)%N then String backslash "n"
  else if (n =? 13)%N then String backslash "r"
  else if ((n <? 32) || (n =? 127) || ((127 <? n) && (n <? 161)) || (n =? 173))%N
  then String backslash
         (String "x" (String (hex_digit (n / 16)) (String (hex_digit (n mod 16)) EmptyString)))
  else String c EmptyString.

Fixpoint contains_char (c : ascii) (s : string) : bool :=
  match s with
  | EmptyString => false
  | String c' r => (c =? c')%char || contains_char c r
  end.

Fixpoint repr_chars (quote : ascii) (s : string) : string :=
  match s with
  | EmptyString => EmptyString
  | String c r => repr_char quote c +:+ repr_chars quote r
  end.

(** [repr(s)] for a string: single quotes, unless the text has a single
    quote and no double quote. *)
Definition repr_str (s : string) : string :=
  let quote :=
    if contains_char single_quote s && negb (contains_char double_quote s)
    then double_quote else single_quote in
  String quote (repr_chars quote s +:+ String quote EmptyString).

Fixpoint py_repr (v : pyval) : string :=
  match v with
  | PyNone => "None"
  | PyBool b => if b then "True" else "False"
  | PyInt z => str_of_int z
  | PyStr s => repr_str s
  | PyList l => "[" +:+ String.concat ", " (map py_repr l) +:+ "]"
  | PyDict d =>
      "{" +:+ String.concat ", "
                (map (fun kv => match kv with
                                | (k, x) => repr_str k +:+ ": " +:+ py_repr x
                                end) d)
          +:+ "}"
  end.

(** [str(v)] *)
Definition py_str (v : pyval) : string :=
  match v with
  | PyStr s => s
  | _ => py_repr v
  end.

(** ** Builtins: comparison, subscripting, [.get], [.items], iteration *)

(** [v == n] for an integer literal [n] ([True == 1] holds in Python). *)
Definition py_eq_int (v : pyval) (n : Z) : bool :=
  match v with
  | PyInt z => (z =? n)%Z
  | PyBool b => ((if b then 1 else 0) =? n)%Z
  | _ => false
  end.

Fixpoint assoc (k : string) (d : list (string * pyval)) : option pyval :=
  match d with
  | [] => None
  | (k', v) :: r => if String.eqb k k' then Some v else assoc k r
  end.

(** [v[key]] for a string key. *)
Definition py_getitem (v : pyval) (key : string) : result pyval :=
  match v with
  | PyDict d =>
      match assoc key d with
      | Some x => Ok x
      | None => Raise KeyError
      end
  | _ => Raise TypeError
  end.

(** [v.get(key, default)]: only dictionaries have the method. *)
Definition py_get (v : pyval) (key : string) (default : pyval) : result pyval :=
  match v with
  | PyDict d =>
      match assoc key d with
      | Some x => Ok x
      | None => Ok default
      end
  | _ => Raise AttributeError
  end.

(** [v.items()] *)
Definition py_items (v : pyval) : result (list (string * pyval)) :=
  match v with
  | PyDict d => Ok d
  | _ => Raise AttributeError
  end.

Fixpoint chars_of (s : string) : list pyval :=
  match s with
  | EmptyString => []
  | String c r => PyStr (String c EmptyString) :: chars_of r
  end.

(** [for x in v]: the elements the loop visits. *)
Definition py_iter (v : pyval) : result (list pyval) :=
  match v with
  | PyList l => Ok l
  | PyDict d => Ok (map (fun kv => PyStr (fst kv)) d)
  | PyStr s => Ok (chars_of s)
  | PyNone | PyBool _ | PyInt _ => Raise TypeError
  end.

Definition isinstance_dict (v : pyval) : bool :=
  match v with
  | PyDict _ => true
  | _ => false
  end.

(** ** The world: disk, network, clock, telemetry, emitted signals *)

(** A file of the configuration directory: missing, present but not a
    JSON document ([raw] is its text), or holding the JSON document
    [doc].  A JSON document is kept parsed, as [json.load] returns it and
    as [json.dump] takes it. *)
Inductive file (A : Type) : Type :=
| Absent
| Garbled (raw : string)
| Holds (doc : A).
Arguments Absent {A}.
Arguments Garbled {A} raw.
Arguments Holds {A} doc.

(** Values of [config.json]: a float (the refresh timestamp, an exact
    rational here) or any other value. *)
Inductive cfgval : Type :=
| CfgFloat (q : Q)
| CfgVal (v : pyval).

(** The document in [config.json]: an object, or some other JSON value
    (an array, a string, a number, ...). *)
Inductive cfgdoc : Type :=
| CfgObject (entries : list (string * cfgval))
| CfgOther.

(** What [requests.get(PRO_LIST_URL, timeout=10)] meets: no response
    (connection error, timeout), or a response with its status code and
    its body as [response.json()] parses it ([None]: not JSON). *)
Inductive http_result : Type :=
| NoResponse
| Response (status : Z) (body : option pyval).

(** The [irsdk.IRSDK] object as the listener sees it during one tick. *)
Record irsdk : Type := mk_irsdk {
  is_initialized : bool;
  is_connected : bool;
  ir_vars : list (string * pyval)
}.

(** How a write that does not succeed fails: at [path.open("w")], the
    file staying as it was; or in [json.dump] after the open has emptied
    the file, which then holds what had been written so far ([written],
    possibly nothing, never a whole JSON document). *)
Inductive write_failure : Type :=
| OpenFails
| DumpFails (written : string).

(** What the surroundings supply: it may differ from tick to tick. *)
Record environment : Type := mk_environment {
  clock : Q;              (* time.time() *)
  dir_ok : bool;          (* cfg_dir.mkdir(parents=True, exist_ok=True) succeeds *)
  disk_writable : bool;   (* path.open("w") and the dump succeed *)
  disk_failure : write_failure;   (* how a write fails when it does *)
  remote : http_result;
  ir : irsdk
}.

(** One element of the list sent with [drivers_updated]: the dict with
    keys UserID, Name, Description and CarNumber. *)
Record pro_driver : Type := mk_pro_driver {
  UserID : Z;
  Name : pyval;
  Description : pyval;
  CarNumber : pyval
}.

(** The two Qt signals of [TelemetryListener]. *)
Inductive signal : Type :=
| session_active (b : bool)
| drivers_updated (l : list pro_driver).

Record world : Type := mk_world {
  env : environment;
  cache_file : file pyval;       (* pro_drivers_cache.json *)
  config_file : file cfgdoc;     (* config.json *)
  http_requests : nat;           (* calls of requests.get so far *)
  emitted : list signal          (* signals emitted so far, oldest first *)
}.

Definition with_env (e : environment) (w : world) : world :=
  mk_world e (cache_file w) (config_file w) (http_requests w) (emitted w).
Definition with_cache (f : file pyval) (w : world) : world :=
  mk_world (env w) f (config_file w) (http_requests w) (emitted w).
Definition with_config (f : file cfgdoc) (w : world) : world :=
  mk_world (env w) (cache_file w) f (http_requests w) (emitted w).
Definition with_request (w : world) : world :=
  mk_world (env w) (cache_file w) (config_file w) (S (http_requests w)) (emitted w).
Definition with_signal (s : signal) (w : world) : world :=
  mk_world (env w) (cache_file w) (config_file w) (http_requests w) (emitted w ++ [s]).

(** ** The monad of effectful Python code

    A computation takes the world and returns a value or a raised
    exception, together with the world it leaves: what was written or
    emitted before an exception stays written or emitted. *)
Definition Py (A : Type) : Type := world -> result A * world.

Definition ret {A} (a : A) : Py A := fun w => (Ok a, w).

Definition bind {A B} (m : Py A) (k : A -> Py B) : Py B :=
  fun w => match m w with
           | (Ok a, w') => k a w'
           | (Raise e, w') => (Raise e, w')
           end.

Definition lift {A} (r : result A) : Py A := fun w => (r, w).

(** [try: body except Exception: handler] *)
Definition try_except {A} (body : Py A) (handler : exn -> Py A) : Py A :=
  fun w => match body w with
           | (Ok a, w') => (Ok a, w')
           | (Raise e, w') => handler e w'
           end.

(** [try: body except (c1, c2, ...): handler] *)
Definition try_except_of {A} (classes : list exn) (body : Py A) (handler : Py A) : Py A :=
  fun w => match body w with
           | (Ok a, w') => (Ok a, w')
           | (Raise e, w') =>
               if existsb (subclass e) classes then handler w' else (Raise e, w')
           end.

Notation "'do' x <- c ; k" := (bind c (fun x => k))
  (at level 10, x name, c at level 100, k at level 200).
Notation "'do' ' p <- c ; k" := (bind c (fun x => match x with p => k end))
  (at level 10, p pattern, c at level 100, k at level 200).
Notation "c ;; k" := (bind c (fun _ => k))
  (at level 100, k at level 200, right associativity).
Notation "'let*' x := c 'in' k" := (rbind c (fun x => k))
  (at level 10, x name, c at level 100, k at level 200).

(** Primitive effects. *)
Definition time_time : Py Q := fun w => (Ok (clock (env w)), w).
Definition time_sleep : Py unit := ret tt.
Definition mkdir_parents_exist_ok : Py unit :=
  fun w => if dir_ok (env w) then (Ok tt, w) else (Raise OSError, w).
Definition cache_on_disk : Py (file pyval) := fun w => (Ok (cache_file w), w).
Definition config_on_disk : Py (file cfgdoc) := fun w => (Ok (config_file w), w).
(** The world after a write of the cache file, or of the configuration
    file, that failed. *)
Definition failed_cache_write (w : world) : world :=
  match disk_failure (env w) with
  | OpenFails => w
  | DumpFails written => with_cache (Garbled written) w
  end.
Definition failed_config_write (w : world) : world :=
  match disk_failure (env w) with
  | OpenFails => w
  | DumpFails written => with_config (Garbled written) w
  end.

(** [with path.open("w") as f: json.dump(doc, f, indent=2)] *)
Definition dump_cache (doc : pyval) : Py unit :=
  fun w => if disk_writable (env w)
           then (Ok tt, with_cache (Holds doc) w)
           else (Raise OSError, failed_cache_write w).
Definition dump_config (doc : cfgdoc) : Py unit :=
  fun w => if disk_writable (env w)
           then (Ok tt, with_config (Holds doc) w)
           else (Raise OSError, failed_config_write w).
Definition requests_get : Py (Z * option pyval) :=
  fun w => match remote (env w) with
           | NoResponse => (Raise ConnectionError, with_request w)
           | Response status body => (Ok (status, body), with_request w)
           end.
Definition emit (s : signal) : Py unit := fun w => (Ok tt, with_signal s w).
Definition telemetry : Py irsdk := fun w => (Ok (ir (env w)), w).

Definition path_exists {A} (f : file A) : bool :=
  match f with
  | Absent => false
  | _ => true
  end.

(** [json.load] on an opened file. *)
Definition json_load {A} (f : file A) : result A :=
  match f with
  | Absent => Raise OSError
  | Garbled _ => Raise JSONDecodeError
  | Holds doc => Ok doc
  end.

(** ** config_manager.py *)

Definition _ensure_config_dir : Py unit := mkdir_parents_exist_ok.

Definition _get_config_path : Py unit := _ensure_config_dir.

Definition _read_config : Py cfgdoc :=
  _get_config_path ;;
  do f <- config_on_disk ;
  if negb (path_exists f) then ret (CfgObject [])
  else try_except (lift (json_load f)) (fun _ => ret (CfgObject [])).

Definition _write_config (cfg : cfgdoc) : Py unit :=
  _get_config_path ;;
  try_except (dump_config cfg) (fun _ => ret tt).

Fixpoint cfg_assoc (k : string) (d : list (string * cfgval)) : option cfgval :=
  match d with
  | [] => None
  | (k', v) :: r => if String.eqb k k' then Some v else cfg_assoc k r
  end.

(** [cfg.get(key)]: [None] when the key is absent. *)
Definition cfg_get (cfg : cfgdoc) (key : string) : result (option cfgval) :=
  match cfg with
  | CfgObject d => Ok (cfg_assoc key d)
  | CfgOther => Raise AttributeError
  end.

Fixpoint cfg_update (k : string) (v : cfgval) (d : list (string * cfgval))
  : list (string * cfgval) :=
  match d with
  | [] => [(k, v)]
  | (k', v') :: r => if String.eqb k k' then (k', v) :: r else (k', v') :: cfg_update k v r
  end.

(** [cfg[key] = v] *)
Definition cfg_setitem (cfg : cfgdoc) (key : string) (v : cfgval) : result cfgdoc :=
  match cfg with
  | CfgObject d => Ok (CfgObject (cfg_update key v d))
  | CfgOther => Raise TypeError
  end.

(** Integers from this bound on are too large for a float: they round
    to 2^1024. *)
Definition float_int_bound : Z := (2 ^ 1024 - 2 ^ 970)%Z.

(** [float(z)] for an integer: [OverflowError] for an integer too large
    to convert; the value is taken exact (it is up to 2^53, beyond that
    Python rounds it to the nearest double). *)
Definition float_of_int (z : Z) : result Q :=
  if (Z.abs z <? float_int_bound)%Z then Ok (inject_Z z) else Raise OverflowError.
Arguments float_of_int : simpl never.

Definition get_last_pro_update : Py Q :=
  do cfg <- _read_config ;
  do ts <- lift (cfg_get cfg "last_pro_update") ;
  match ts with
  | Some (CfgFloat q) => ret q
  | Some (CfgVal (PyInt z)) => lift (float_of_int z)
  | Some (CfgVal (PyBool b)) => ret (if b then 1%Q else 0%Q)
  | _ => ret 0%Q
  end.

Definition set_last_pro_update (timestamp : Q) : Py unit :=
  do cfg <- _read_config ;
  do cfg' <- lift (cfg_setitem cfg "last_pro_update" (CfgFloat timestamp)) ;
  _write_config cfg'.

(** ** prolist_manager.py *)

Definition _get_cache_path : Py unit := _ensure_config_dir.

(** [{int(k): str(v) for k, v in items}], built left to right: a later
    item replaces an earlier one with the same integer key. *)
Fixpoint int_keyed (items : list (string * pyval)) (acc : gmap Z string)
  : result (gmap Z string) :=
  match items with
  | [] => Ok acc
  | (k, v) :: rest =>
      let* uid := py_int (PyStr k) in
      int_keyed rest (<[uid := py_str v]> acc)
  end.

Definition _read_cache : Py (gmap Z string) :=
  _get_cache_path ;;
  do f <- cache_on_disk ;
  if negb (path_exists f) then ret ∅
  else
    try_except
      (do data <- lift (json_load f) ;
       do items <- lift (py_items data) ;
       lift (int_keyed items ∅))
      (fun _ => ret ∅).

(** [{str(k): v for k, v in pro_map.items()}] as a JSON object.  The
    entries come in the order [map_to_list] lists them; Python would keep
    the insertion order, which no reader of the file depends on. *)
Definition string_keyed (pro_map : gmap Z string) : pyval :=
  PyDict (map (fun kv => (str_of_int (fst kv), PyStr (snd kv))) (map_to_list pro_map)).

Definition _write_cache (pro_map : gmap Z string) : Py unit :=
  _get_cache_path ;;
  try_except (dump_cache (string_keyed pro_map)) (fun _ => ret tt).

(** [response.raise_for_status()] *)
Definition raise_for_status (status : Z) : result unit :=
  if ((400 <=? status) && (status <? 600))%Z then Raise HTTPError else Ok tt.

(** [response.json()] *)
Definition response_json (body : option pyval) : result pyval :=
  match body with
  | Some data => Ok data
  | None => Raise JSONDecodeError
  end.

(** The body of the inner [try] of the download loop. *)
Definition pro_item (item : pyval) : result (Z * string) :=
  let* u := py_getitem item "UserID" in
  let* uid := py_int u in
  let* n := py_getitem item "Name" in
  Ok (uid, py_str n).

(** [for item in data: try: ... pro_map[uid] = name
     except (KeyError, ValueError, TypeError): continue] *)
Fixpoint collect_pro_map (items : list pyval) (pro_map : gmap Z string)
  : result (gmap Z string) :=
  match items with
  | [] => Ok pro_map
  | item :: rest =>
      match pro_item item with
      | Ok (uid, name) => collect_pro_map rest (<[uid := name]> pro_map)
      | Raise e =>
          if existsb (subclass e) [KeyError; ValueError; TypeError]
          then collect_pro_map rest pro_map
          else Raise e
      end
  end.

Definition fetch_and_cache_pro_list : Py (gmap Z string) :=
  try_except
    (do '(status, body) <- requests_get ;
     lift (raise_for_status status) ;;
     do data <- lift (response_json body) ;
     do items <- lift (py_iter data) ;
     do pro_map <- lift (collect_pro_map items ∅) ;
     _write_cache pro_map ;;
     do now <- time_time ;
     set_last_pro_update now ;;
     ret pro_map)
    (fun _ => _read_cache).

Definition refresh_interval : Q := (24 * 3600)%Q.

(** [x > y] on timestamps. *)
Definition Qgtb (x y : Q) : bool := negb (Qle_bool x y).

Definition get_pro_list (force_refresh : bool) : Py (gmap Z string) :=
  do last_update <- get_last_pro_update ;
  do now <- time_time ;
  if force_refresh || Qgtb (now - last_update)%Q refresh_interval
  then
    do pro_map <- fetch_and_cache_pro_list ;
    if bool_decide (pro_map = ∅) then _read_cache else ret pro_map
  else _read_cache.

(** ** telemetry_listener.py *)

(** [self.ir[key]] *)
Definition ir_getitem (key : string) : Py pyval :=
  do sdk <- telemetry ;
  match assoc key (ir_vars sdk) with
  | Some v => ret v
  | None => lift (Raise KeyError)
  end.

(** The body of the [try] inside the loop over the drivers.  [entry] is
    a value of the pro map, a Python [str]. *)
Definition pro_driver_of (pro_map : gmap Z string) (drv : pyval)
  : result (option pro_driver) :=
  let* u := py_get drv "UserID" PyNone in
  let* uid := py_int u in
  match pro_map !! uid with
  | Some entry =>
      let* name := py_get (PyStr entry) "Name" (PyStr EmptyString) in
      let* descr := py_get (PyStr entry) "Description" (PyStr EmptyString) in
      let* car := py_get drv "CarNumber" (PyStr EmptyString) in
      Ok (Some (mk_pro_driver uid name descr car))
  | None => Ok None
  end.

(** [for drv in drivers: try: ... pro_drivers.append(...)
     except Exception: continue] *)
Fixpoint collect_pro_drivers (pro_map : gmap Z string) (drivers : list pyval)
    (pro_drivers : list pro_driver) : list pro_driver :=
  match drivers with
  | [] => pro_drivers
  | drv :: rest =>
      match pro_driver_of pro_map drv with
      | Ok (Some d) => collect_pro_drivers pro_map rest (pro_drivers ++ [d])
      | Ok None => collect_pro_drivers pro_map rest pro_drivers
      | Raise _ => collect_pro_drivers pro_map rest pro_drivers
      end
  end.

(** The statements inside the [try] of the [while] loop. *)
Definition loop_body : Py unit :=
  do sdk <- telemetry ;
  if negb (is_initialized sdk && is_connected sdk)
  then emit (session_active false) ;; time_sleep
  else
    do '(session_state, is_on_track) <-
      try_except_of [KeyError]
        (do s <- ir_getitem "SessionState" ;
         do t <- ir_getitem "IsOnTrack" ;
         ret (s, t))
        (ret (PyInt 0, PyInt 0)) ;
    let active := py_eq_int session_state 4 && py_eq_int is_on_track 1 in
    emit (session_active active) ;;
    (if active
     then
       do drivers <-
         try_except
           (do driver_info <- ir_getitem "DriverInfo" ;
            if isinstance_dict driver_info
            then lift (py_get driver_info "Drivers" (PyList []))
            else ret (PyList []))
           (fun _ => ret (PyList [])) ;
       do pro_map <- get_pro_list false ;
       do drvs <- lift (py_iter drivers) ;
       emit (drivers_updated (collect_pro_drivers pro_map drvs []))
     else emit (drivers_updated [])) ;;
    time_sleep.

(** One pass of the [while] loop: the [try] with its handler, which logs
    and sleeps. *)
Definition loop_iteration : Py unit :=
  try_except loop_body (fun _ => time_sleep).

Definition surroundings (e : environment) : Py unit :=
  fun w => (Ok tt, with_env e w).

(** [while self._running: ...]: one pass per tick, each tick with the
    surroundings it meets; the list ends where [stop()] has cleared
    [_running]. *)
Fixpoint while_running (ticks : list environment) : Py unit :=
  match ticks with
  | [] => ret tt
  | t :: rest => surroundings t ;; loop_iteration ;; while_running rest
  end.

(** [self.ir.startup()]: whether the SDK got initialised shows in
    [is_initialized] on the ticks that follow. *)
Definition ir_startup : Py unit := ret tt.

(** [TelemetryListener._run] *)
Definition _run (ticks : list environment) : Py unit :=
  try_except ir_startup (fun _ => time_sleep) ;;
  while_running ticks.

(** ** The subscriber and the words of the specification *)

(** The entry list a subscriber holds after the signals [sigs]: the list
    of the last [drivers_updated], the empty list before the first. *)
Fixpoint observed_entries (sigs : list signal) (held : list pro_driver)
  : list pro_driver :=
  match sigs with
  | [] => held
  | session_active _ :: rest => observed_entries rest held
  | drivers_updated l :: rest => observed_entries rest l
  end.

(** The values of [session_active] among the signals, in order. *)
Fixpoint active_flags (sigs : list signal) : list bool :=
  match sigs with
  | [] => []
  | session_active b :: rest => b :: active_flags rest
  | drivers_updated _ :: rest => active_flags rest
  end.

(** The flag the specification asks for on a tick: session state 4 and
    on-track 1, both fields taken as 0 when one of them is missing. *)
Definition spec_active_flag (sdk : irsdk) : bool :=
  match assoc "SessionState" (ir_vars sdk), assoc "IsOnTrack" (ir_vars sdk) with
  | Some s, Some t => py_eq_int s 4 && py_eq_int t 1
  | _, _ => py_eq_int (PyInt 0) 4 && py_eq_int (PyInt 0) 1
  end.

Definition connected (e : environment) : bool :=
  is_initialized (ir e) && is_connected (ir e).

(** The mapping a download delivers: the response is accepted by
    [raise_for_status], its body is JSON and can be iterated. *)
Definition downloaded (r : http_result) : result (gmap Z string) :=
  match r with
  | NoResponse => Raise ConnectionError
  | Response status body =>
      let* _ := raise_for_status status in
      let* data := response_json body in
      let* items := py_iter data in
      collect_pro_map items ∅
  end.

(** ** Notions used in the statements and proofs below *)

(** What [_read_config] returns for a file, the directory being usable. *)
Definition loaded_config (f : file cfgdoc) : cfgdoc :=
  match f with
  | Holds doc => doc
  | _ => CfgObject []
  end.

(** The timestamp [get_last_pro_update] finds in a configuration object. *)
Definition stamp_of (d : list (string * cfgval)) : result Q :=
  match cfg_assoc "last_pro_update" d with
  | Some (CfgFloat q) => Ok q
  | Some (CfgVal (PyInt z)) => float_of_int z
  | Some (CfgVal (PyBool b)) => Ok (if b then 1%Q else 0%Q)
  | _ => Ok 0%Q
  end.

(** The world a completed download of [pro_map] leaves, [d] being the
    configuration object before it: both files written, or both writes
    failed. *)
Definition after_refresh (pro_map : gmap Z string) (d : list (string * cfgval))
    (w : world) : world :=
  if disk_writable (env w)
  then with_config
         (Holds (CfgObject (cfg_update "last_pro_update" (CfgFloat (clock (env w))) d)))
         (with_cache (Holds (string_keyed pro_map)) (with_request w))
  else failed_config_write (failed_cache_write (with_request w)).

(** [str(k)] gives the decimal text of [k]: [k] has at most 4300
    decimal digits.  Beyond that limit (the default of the interpreter)
    [str] and [int] raise [ValueError], which [str_of_int] and
    [int_of_literal] leave out: statements that convert the keys of a map
    ask for [printable_keys]. *)
Definition printable_int (k : Z) : bool := (Z.abs k <? 10 ^ 4300)%Z.

Definition printable_keys (pro_map : gmap Z string) : bool :=
  forallb (fun kv => printable_int (fst kv)) (map_to_list pro_map).

(** One step of [int_keyed] on an entry that is already decoded. *)
Definition put_entry (m : gmap Z string) (kv : Z * string) : gmap Z string :=
  <[fst kv := snd kv]> m.

(** [quiet w w']: from [w] to [w'] no signal was emitted and the
    surroundings are the same. *)
Definition quiet (w w' : world) : Prop :=
  env w' = env w /\ emitted w' = emitted w.

Definition keeps_quiet {A} (m : Py A) : Prop := forall w, quiet w (snd (m w)).

(** ** config_manager.py: the window position *)

(** [isinstance(c, int)]: [bool] is a subclass of [int]. *)
Definition isinstance_int (v : pyval) : bool :=
  match v with
  | PyInt _ | PyBool _ => true
  | _ => false
  end.

(** The pair [(None, None)] stands for no saved position.  A list with
    a float in it is outside [pyval]; the code answers [(None, None)] for
    it as for any list that is not two integers. *)
Definition get_window_position : Py (pyval * pyval) :=
  do cfg <- _read_config ;
  do pos <- lift (cfg_get cfg "window_position") ;
  match pos with
  | Some (CfgVal (PyList l)) =>
      if Nat.eqb (length l) 2 && forallb isinstance_int l
      then match l with
           | a :: b :: _ => ret (a, b)
           | _ => ret (PyNone, PyNone)
           end
      else ret (PyNone, PyNone)
  | _ => ret (PyNone, PyNone)
  end.

Definition set_window_position (x y : Z) : Py unit :=
  do cfg <- _read_config ;
  do cfg' <- lift (cfg_setitem cfg "window_position"
                     (CfgVal (PyList [PyInt x; PyInt y]))) ;
  _write_config cfg'.

(** ** prolist_manager.py: the two lookups *)

Definition is_pro_driver (user_id : pyval) : Py bool :=
  do pro_map <- get_pro_list false ;
  do uid <- lift (py_int user_id) ;
  ret (bool_decide (is_Some (pro_map !! uid))).

Definition get_pro_name (user_id : pyval) : Py string :=
  do pro_map <- get_pro_list false ;
  do uid <- lift (py_int user_id) ;
  ret (default EmptyString (pro_map !! uid)).

(** ** More notions for the statements below *)

(** The configuration directory is usable and [config.json], when it
    parses, holds an object. *)
Definition config_usable (w : world) : Prop :=
  dir_ok (env w) = true /\ loaded_config (config_file w) <> CfgOther.

(** The drivers an active tick loops over: the Drivers entry of
    DriverInfo when DriverInfo is there and is a dict, the empty list
    otherwise. *)
Definition session_drivers (sdk : irsdk) : pyval :=
  match assoc "DriverInfo" (ir_vars sdk) with
  | Some (PyDict info) =>
      match assoc "Drivers" info with
      | Some drivers => drivers
      | None => PyList []
      end
  | _ => PyList []
  end.

(** A tick that finds the source connected, racing and on track. *)
Definition active_tick (e : environment) : bool :=
  connected e && spec_active_flag (ir e).

(** ** Worlds of the examples *)

Definition three_drivers : pyval :=
  PyList
    [PyDict [("UserID", PyInt 1); ("CarNumber", PyStr "12")];
     PyDict [("UserID", PyInt 2); ("CarNumber", PyStr "7")];
     PyDict [("UserID", PyInt 3); ("CarNumber", PyStr "9")]].

(** Racing and on track, with the three drivers in the session. *)
Definition racing_sdk : irsdk :=
  mk_irsdk true true
    [("SessionState", PyInt 4); ("IsOnTrack", PyBool true);
     ("DriverInfo", PyDict [("Drivers", three_drivers)])].

(** Racing and on track, with a DriverInfo whose Drivers entry is null. *)
Definition null_drivers_sdk : irsdk :=
  mk_irsdk true true
    [("SessionState", PyInt 4); ("IsOnTrack", PyInt 1);
     ("DriverInfo", PyDict [("Drivers", PyNone)])].

Definition offline_sdk : irsdk := mk_irsdk false false [].

Definition alice_carol_cache : file pyval :=
  Holds (PyDict [("1", PyStr "Alice"); ("3", PyStr "Carol")]).

Definition stamped (ts : Q) : file cfgdoc :=
  Holds (CfgObject [("last_pro_update", CfgFloat ts)]).

Definition surroundings_at (now : Q) (r : http_result) (sdk : irsdk) : environment :=
  mk_environment now true true OpenFails r sdk.

(** The filtering example: cache with Alice and Carol, refreshed 100
    seconds ago, three drivers on track. *)
Definition filtering_world : world :=
  mk_world (surroundings_at 1000 NoResponse racing_sdk)
    alice_carol_cache (stamped 900) 0 [].

(** A remote that answers 200 with an empty array, a cache with Alice. *)
Definition empty_download_world : world :=
  mk_world (surroundings_at 1000 (Response 200 (Some (PyList []))) offline_sdk)
    (Holds (PyDict [("1", PyStr "Alice")])) (stamped 900) 0 [].

(** A remote that answers 200 with Alice and Carol. *)
Definition good_download_world : world :=
  mk_world
    (surroundings_at 1000
       (Response 200
          (Some (PyList
                   [PyDict [("UserID", PyInt 1); ("Name", PyStr "Alice")];
                    PyDict [("UserID", PyInt 3); ("Name", PyStr "Carol")]])))
       offline_sdk)
    Absent (stamped 900) 0 [].

(** A remote that answers 500. *)
Definition server_error_world : world :=
  mk_world (surroundings_at 1000 (Response 500 None) offline_sdk)
    alice_carol_cache (stamped 900) 0 [].

(** Exactly one refresh interval after the last refresh. *)
Definition boundary_world : world :=
  mk_world (surroundings_at 87400 NoResponse offline_sdk)
    alice_carol_cache (stamped 1000) 0 [].

(** A tick whose DriverInfo cannot be iterated. *)
Definition null_drivers_world : world :=
  mk_world (surroundings_at 1000 NoResponse null_drivers_sdk)
    alice_carol_cache (stamped 900) 0 [].

(** [config.json] holds a JSON array. *)
Definition array_config_world : world :=
  mk_world (surroundings_at 1000 NoResponse offline_sdk)
    alice_carol_cache (Holds CfgOther) 0 [].

(** A disk that cannot be written, a remote that answers with Alice. *)
Definition unwritable_world : world :=
  mk_world
    (mk_environment 1000 true false OpenFails
       (Response 200
          (Some (PyList [PyDict [("UserID", PyInt 1); ("Name", PyStr "Alice")]])))
       offline_sdk)
    Absent (stamped 900) 0 [].

(** First launch: no configuration file, no cache, no network. *)
Definition first_run_world : world :=
  mk_world (surroundings_at 1700000000 NoResponse offline_sdk) Absent Absent 0 [].

(** Stale and offline: last refresh 99000 seconds ago, no network. *)
Definition stale_offline_world : world :=
  mk_world (surroundings_at 100000 NoResponse offline_sdk)
    alice_carol_cache (stamped 1000) 0 [].

(** A cache file with one key that is not an integer. *)
Definition bad_key_world : world :=
  mk_world (surroundings_at 1000 NoResponse offline_sdk)
    (Holds (PyDict [("1", PyStr "Alice"); ("abc", PyStr "Bob")]))
    (stamped 900) 0 [].

(** A remote that answers 200 with a JSON object instead of an array. *)
Definition object_body_world : world :=
  mk_world
    (surroundings_at 1000
       (Response 200 (Some (PyDict [("error", PyStr "moved")]))) offline_sdk)
    alice_carol_cache (stamped 900) 0 [].

(** No cache yet, a configuration stamped 100 seconds ago. *)
Definition first_run_world_stamped : world :=
  mk_world (surroundings_at 1000 NoResponse offline_sdk) Absent (stamped 900) 0 [].

(** The stored timestamp is ahead of the clock; the remote answers 200
    with Alice and Carol. *)
Definition clock_behind_world : world :=
  mk_world (env good_download_world) Absent (stamped 2000) 0 [].

(** A cache file with Carol that cannot be opened for writing. *)
Definition read_only_world : world :=
  mk_world (mk_environment 1000 true false OpenFails NoResponse offline_sdk)
    (Holds (PyDict [("3", PyStr "Carol")])) (stamped 900) 0 [].

(** A disk on which the open succeeds and the dump fails at once; the
    remote answers with Alice. *)
Definition full_disk_world : world :=
  mk_world
    (mk_environment 1000 true false (DumpFails EmptyString)
       (Response 200
          (Some (PyList [PyDict [("UserID", PyInt 1); ("Name", PyStr "Alice")]])))
       offline_sdk)
    alice_carol_cache (stamped 900) 0 [].

(** * Properties *)

(** ** Decimal text of integers: [int(str(k)) = k] *)

Lemma digit_cases (d : Z) :
  (0 <= d < 10)%Z ->
  d = 0%Z \/ d = 1%Z \/ d = 2%Z \/ d = 3%Z \/ d = 4%Z \/
  d = 5%Z \/ d = 6%Z \/ d = 7%Z \/ d = 8%Z \/ d = 9%Z.
Proof. lia. Qed.

Ltac each_digit d H :=
  destruct (digit_cases d H) as [->|[->|[->|[->|[->|[->|[->|[->|[->| ->]]]]]]]]].

Lemma digit_val_char (d : Z) :
  (0 <= d < 10)%Z -> digit_val (digit_char d) = Some d.
Proof. intros H. each_digit d H; reflexivity. Qed.

Lemma digit_char_not_space (d : Z) :
  (0 <= d < 10)%Z -> is_space (digit_char d) = false.
Proof. intros H. each_digit d H; reflexivity. Qed.

Lemma mod10_digit (n : Z) : (0 <= n mod 10 < 10)%Z.
Proof. apply Z.mod_pos_bound. lia. Qed.

Lemma digits_of_value (f : nat) :
  forall (n : Z) (rest : string) (b : bool),
    (0 <= n < 10 ^ Z.of_nat (S f))%Z ->
    digits_value (digits_of (S f) n rest) 0%Z b = digits_value rest n true.
Proof.
  induction f as [|f IH]; intros n rest b Hn.
  - assert (Hlt : (n <? 10)%Z = true) by (apply Z.ltb_lt; simpl in Hn; lia).
    simpl. rewrite Hlt. simpl.
    rewrite Z.mod_small by (apply Z.ltb_lt in Hlt; lia).
    rewrite digit_val_char by (apply Z.ltb_lt in Hlt; lia).
    reflexivity.
  - change (digits_of (S (S f)) n rest)
      with (let acc' := String (digit_char (n mod 10)) rest in
            if (n <? 10)%Z then acc' else digits_of (S f) (n / 10) acc').
    cbv zeta. destruct (n <? 10)%Z eqn:Hlt.
    + apply Z.ltb_lt in Hlt. simpl.
      rewrite Z.mod_small by lia. rewrite digit_val_char by lia. reflexivity.
    + apply Z.ltb_ge in Hlt.
      rewrite IH.
      * simpl. rewrite digit_val_char by apply mod10_digit.
        f_equal. pose proof (Z.div_mod n 10). lia.
      * split; [apply Z.div_pos; lia|].
        apply Z.div_lt_upper_bound; [lia|].
        replace (Z.of_nat (S (S f))) with (Z.succ (Z.of_nat (S f))) in Hn by lia.
        rewrite Z.pow_succ_r in Hn by lia. lia.
Qed.

Lemma enough_fuel (n : Z) :
  (0 <= n)%Z -> (0 <= n < 10 ^ Z.of_nat (S (Z.to_nat (Z.log2 n))))%Z.
Proof.
  intros Hn. split; [assumption|].
  pose proof (Z.log2_nonneg n) as Hl.
  replace (Z.of_nat (S (Z.to_nat (Z.log2 n)))) with (Z.succ (Z.log2 n)) by lia.
  destruct (Z.eq_dec n 0%Z) as [->|Hne].
  - reflexivity.
  - destruct (Z.log2_spec n) as [_ Hup]; [lia|].
    eapply Z.lt_le_trans; [exact Hup|].
    apply Z.pow_le_mono_l. lia.
Qed.

Lemma rstrip_cons (c : ascii) (r : string) :
  is_space c = false -> rstrip r = r -> rstrip (String c r) = String c r.
Proof.
  intros Hc Hr. simpl. rewrite Hr, Hc. destruct r; reflexivity.
Qed.

Lemma rstrip_digits (f : nat) :
  forall (n : Z) (acc : string),
    rstrip acc = acc -> rstrip (digits_of f n acc) = digits_of f n acc.
Proof.
  induction f as [|f IH]; intros n acc Hacc; [exact Hacc|].
  change (digits_of (S f) n acc)
    with (let acc' := String (digit_char (n mod 10)) acc in
          if (n <? 10)%Z then acc' else digits_of f (n / 10) acc').
  cbv zeta.
  assert (Hc : rstrip (String (digit_char (n mod 10)) acc)
               = String (digit_char (n mod 10)) acc)
    by (apply rstrip_cons; [apply digit_char_not_space, mod10_digit|exact Hacc]).
  destruct (n <? 10)%Z; [exact Hc|]. apply IH. exact Hc.
Qed.

Lemma digits_of_head (f : nat) :
  forall (n : Z) (acc : string),
    exists d r, (0 <= d < 10)%Z /\ digits_of (S f) n acc = String (digit_char d) r.
Proof.
  induction f as [|f IH]; intros n acc.
  - exists (n mod 10)%Z, acc. split; [apply mod10_digit|].
    simpl. destruct (n <? 10)%Z; reflexivity.
  - change (digits_of (S (S f)) n acc)
      with (let acc' := String (digit_char (n mod 10)) acc in
            if (n <? 10)%Z then acc' else digits_of (S f) (n / 10) acc').
    cbv zeta. destruct (n <? 10)%Z.
    + exists (n mod 10)%Z, acc. split; [apply mod10_digit|reflexivity].
    + apply IH.
Qed.

Lemma int_of_literal_digits (f : nat) (n : Z) :
  int_of_literal (digits_of (S f) n EmptyString)
  = digits_value (digits_of (S f) n EmptyString) 0%Z false.
Proof.
  unfold int_of_literal.
  destruct (digits_of_head f n EmptyString) as (d & r & Hd & E).
  assert (Hl : lstrip (digits_of (S f) n EmptyString) = digits_of (S f) n EmptyString)
    by (rewrite E; simpl; rewrite digit_char_not_space by exact Hd; reflexivity).
  rewrite Hl, rstrip_digits by reflexivity.
  rewrite E. each_digit d Hd; reflexivity.
Qed.

(** Parsing the decimal text of an integer gives the integer back. *)
Lemma int_of_str_of_int (z : Z) : int_of_literal (str_of_int z) = Some z.
Proof.
  unfold str_of_int. destruct (z <? 0)%Z eqn:Hneg.
  - apply Z.ltb_lt in Hneg.
    set (f := Z.to_nat (Z.log2 (- z))).
    assert (Hr : rstrip (digits_of (S f) (- z) EmptyString)
                 = digits_of (S f) (- z) EmptyString)
      by (apply rstrip_digits; reflexivity).
    unfold int_of_literal.
    change (lstrip (String "-" (digits_of (S f) (- z) EmptyString)))
      with (String "-"%char (digits_of (S f) (- z) EmptyString)).
    rewrite rstrip_cons by (reflexivity || exact Hr).
    rewrite digits_of_value by (apply enough_fuel; lia).
    simpl. f_equal. lia.
  - apply Z.ltb_ge in Hneg.
    rewrite int_of_literal_digits.
    rewrite digits_of_value by (apply enough_fuel; lia).
    reflexivity.
Qed.

Lemma py_int_str_of_int (z : Z) : py_int (PyStr (str_of_int z)) = Ok z.
Proof. simpl. rewrite int_of_str_of_int. reflexivity. Qed.

(** ** Reading leaves the world as it is *)

Ltac run_py :=
  repeat (unfold bind, ret, lift, try_except, try_except_of, time_sleep,
            time_time, cache_on_disk, config_on_disk, telemetry,
            mkdir_parents_exist_ok in *; simpl in * ).

Lemma read_config_frame (w : world) : snd (_read_config w) = w.
Proof.
  unfold _read_config, _get_config_path, _ensure_config_dir. run_py.
  destruct (dir_ok (env w)); [|reflexivity].
  destruct (config_file w); reflexivity.
Qed.

Lemma get_last_pro_update_frame (w : world) : snd (get_last_pro_update w) = w.
Proof.
  unfold get_last_pro_update, bind.
  pose proof (read_config_frame w) as H.
  destruct (_read_config w) as [[cfg|e] w']; simpl in H; subst w'; [|reflexivity].
  unfold lift. destruct cfg as [d|]; simpl; [|reflexivity].
  destruct (cfg_assoc "last_pro_update" d) as [[q|[]]|]; reflexivity.
Qed.

Lemma read_cache_frame (w : world) : snd (_read_cache w) = w.
Proof.
  unfold _read_cache, _get_cache_path, _ensure_config_dir. run_py.
  destruct (dir_ok (env w)); [|reflexivity].
  destruct (cache_file w) as [|raw|doc]; simpl; try reflexivity.
  destruct (py_items doc) as [items|e]; simpl; [|reflexivity].
  destruct (int_keyed items ∅); reflexivity.
Qed.

(** ** The cache file keeps what was written *)

Lemma int_keyed_string_keyed (l : list (Z * string)) :
  forall acc : gmap Z string,
    int_keyed (map (fun kv => (str_of_int (fst kv), PyStr (snd kv))) l) acc
    = Ok (fold_left put_entry l acc).
Proof.
  induction l as [|[k v] l IH]; intros acc; [reflexivity|].
  cbn [map int_keyed fst snd]. rewrite py_int_str_of_int.
  cbn [rbind py_str]. apply IH.
Qed.

Lemma fold_put_entry (l : list (Z * string)) :
  NoDup (l.*1) ->
  forall acc : gmap Z string, fold_left put_entry l acc = list_to_map l ∪ acc.
Proof.
  induction l as [|[k v] l IH]; intros Hnd acc.
  - cbn. by rewrite (left_id_L ∅ (∪)).
  - cbn in Hnd. apply NoDup_cons in Hnd as [Hk Hnd].
    cbn [fold_left]. rewrite IH by exact Hnd.
    unfold put_entry. cbn [fst snd list_to_map foldr].
    rewrite <- insert_union_l.
    rewrite <- insert_union_r; [reflexivity|].
    by apply not_elem_of_list_to_map_1.
Qed.

Lemma fold_put_entry_map_to_list (m : gmap Z string) :
  fold_left put_entry (map_to_list m) ∅ = m.
Proof.
  rewrite fold_put_entry by apply NoDup_fst_map_to_list.
  rewrite (right_id_L ∅ (∪)). apply list_to_map_to_list.
Qed.

(** C5, as the code has it.  Writing a pro map to the cache and reading
    the cache back gives the same map, the empty map included, when the
    configuration directory is usable, the write succeeds and every key
    has a decimal text that [str] gives (at most 4300 digits). *)
Theorem cache_round_trip (pro_map : gmap Z string) (w : world) :
  dir_ok (env w) = true ->
  disk_writable (env w) = true ->
  printable_keys pro_map = true ->
  fst (_read_cache (snd (_write_cache pro_map w))) = Ok pro_map.
Proof.
  intros Hdir Hwr _.
  unfold _write_cache, _read_cache, _get_cache_path, _ensure_config_dir, dump_cache.
  run_py. rewrite Hdir, Hwr. simpl. rewrite Hdir. simpl.
  unfold string_keyed. simpl.
  rewrite int_keyed_string_keyed, fold_put_entry_map_to_list. reflexivity.
Qed.

(** ** What the configuration and cache functions compute *)

Lemma read_config_run (w : world) :
  dir_ok (env w) = true -> _read_config w = (Ok (loaded_config (config_file w)), w).
Proof.
  intros Hdir. unfold _read_config, _get_config_path, _ensure_config_dir.
  run_py. rewrite Hdir. destruct (config_file w); reflexivity.
Qed.

Lemma get_last_pro_update_ok (w : world) (last : Q) :
  fst (get_last_pro_update w) = Ok last ->
  dir_ok (env w) = true /\
  exists d, loaded_config (config_file w) = CfgObject d /\ stamp_of d = Ok last.
Proof.
  intros H. destruct (dir_ok (env w)) eqn:Hdir.
  - split; [reflexivity|].
    unfold get_last_pro_update, bind in H. rewrite read_config_run in H by exact Hdir.
    destruct (loaded_config (config_file w)) as [d|]; [|discriminate H].
    exists d. split; [reflexivity|]. unfold stamp_of. unfold lift in H. simpl in H.
    destruct (cfg_assoc "last_pro_update" d) as [[q|[]]|]; simpl in H; congruence.
  - exfalso. unfold get_last_pro_update, _read_config, _get_config_path,
      _ensure_config_dir in H. run_py. rewrite Hdir in H. discriminate H.
Qed.

Lemma get_last_pro_update_run (w : world) (d : list (string * cfgval)) :
  dir_ok (env w) = true ->
  loaded_config (config_file w) = CfgObject d ->
  get_last_pro_update w = (stamp_of d, w).
Proof.
  intros Hdir Hd. unfold get_last_pro_update, bind.
  rewrite read_config_run by exact Hdir. rewrite Hd. unfold lift, stamp_of. simpl.
  destruct (cfg_assoc "last_pro_update" d) as [[q|[]]|]; reflexivity.
Qed.

Lemma cfg_assoc_update (k : string) (v : cfgval) (d : list (string * cfgval)) :
  cfg_assoc k (cfg_update k v d) = Some v.
Proof.
  induction d as [|[k' v'] d IH]; simpl.
  - rewrite String.eqb_refl. reflexivity.
  - destruct (String.eqb k k') eqn:E; simpl; rewrite E; [reflexivity|exact IH].
Qed.

Lemma set_last_pro_update_run (w : world) (ts : Q) (d : list (string * cfgval)) :
  dir_ok (env w) = true ->
  loaded_config (config_file w) = CfgObject d ->
  set_last_pro_update ts w
  = (Ok tt,
     if disk_writable (env w)
     then with_config (Holds (CfgObject (cfg_update "last_pro_update" (CfgFloat ts) d))) w
     else failed_config_write w).
Proof.
  intros Hdir Hd. unfold set_last_pro_update, bind.
  rewrite read_config_run by exact Hdir. rewrite Hd. unfold lift. cbn [cfg_setitem].
  unfold _write_config, _get_config_path, _ensure_config_dir, dump_config. run_py.
  rewrite Hdir. destruct (disk_writable (env w)); reflexivity.
Qed.

Lemma write_cache_run (w : world) (pro_map : gmap Z string) :
  dir_ok (env w) = true ->
  _write_cache pro_map w
  = (Ok tt,
     if disk_writable (env w)
     then with_cache (Holds (string_keyed pro_map)) w
     else failed_cache_write w).
Proof.
  intros Hdir. unfold _write_cache, _get_cache_path, _ensure_config_dir, dump_cache.
  run_py. rewrite Hdir. destruct (disk_writable (env w)); reflexivity.
Qed.

(** The download part of [fetch_and_cache_pro_list] is [downloaded]; what
    follows it is the persisting of the map. *)
Lemma fetch_and_cache_unfold (w : world) :
  fetch_and_cache_pro_list w
  = match downloaded (remote (env w)) with
    | Ok pro_map =>
        try_except
          (_write_cache pro_map ;;
           do now <- time_time ;
           set_last_pro_update now ;;
           ret pro_map)
          (fun _ => _read_cache) (with_request w)
    | Raise _ => _read_cache (with_request w)
    end.
Proof.
  unfold fetch_and_cache_pro_list, downloaded, try_except at 1, bind at 1, requests_get.
  destruct (remote (env w)) as [|status body]; [reflexivity|].
  unfold try_except, bind, lift. cbn [rbind].
  destruct (raise_for_status status) as [[]|e]; [|reflexivity]. cbn [rbind].
  destruct (response_json body) as [data|e]; [|reflexivity]. cbn [rbind].
  destruct (py_iter data) as [items|e]; [|reflexivity]. cbn [rbind].
  destruct (collect_pro_map items ∅) as [pro_map|e]; reflexivity.
Qed.

(** With a usable directory and an object in [config.json], a completed
    download is persisted and returned. *)
Lemma failed_cache_write_keeps (w : world) :
  env (failed_cache_write w) = env w /\
  config_file (failed_cache_write w) = config_file w /\
  http_requests (failed_cache_write w) = http_requests w /\
  emitted (failed_cache_write w) = emitted w.
Proof. unfold failed_cache_write. destruct (disk_failure (env w)); repeat split. Qed.

Lemma failed_config_write_keeps (w : world) :
  env (failed_config_write w) = env w /\
  cache_file (failed_config_write w) = cache_file w /\
  http_requests (failed_config_write w) = http_requests w /\
  emitted (failed_config_write w) = emitted w.
Proof. unfold failed_config_write. destruct (disk_failure (env w)); repeat split. Qed.

Lemma after_refresh_keeps (pro_map : gmap Z string) (d : list (string * cfgval))
    (w : world) :
  env (after_refresh pro_map d w) = env w /\
  http_requests (after_refresh pro_map d w) = S (http_requests w) /\
  emitted (after_refresh pro_map d w) = emitted w.
Proof.
  unfold after_refresh. destruct (disk_writable (env w)); [repeat split|].
  destruct (failed_config_write_keeps (failed_cache_write (with_request w)))
    as (He & _ & Hr & Hm).
  destruct (failed_cache_write_keeps (with_request w)) as (He' & _ & Hr' & Hm').
  rewrite He, Hr, Hm, He', Hr', Hm'. repeat split.
Qed.

Lemma fetch_and_cache_ok (w : world) (pro_map : gmap Z string)
    (d : list (string * cfgval)) :
  downloaded (remote (env w)) = Ok pro_map ->
  dir_ok (env w) = true ->
  loaded_config (config_file w) = CfgObject d ->
  fetch_and_cache_pro_list w = (Ok pro_map, after_refresh pro_map d w).
Proof.
  intros Hdl Hdir Hd. rewrite fetch_and_cache_unfold, Hdl.
  unfold try_except, bind. rewrite write_cache_run by exact Hdir.
  unfold time_time, after_refresh. cbn [env with_request].
  destruct (disk_writable (env w)) eqn:Hwr.
  - erewrite set_last_pro_update_run by (cbn; eassumption).
    cbn. rewrite Hwr. reflexivity.
  - destruct (failed_cache_write_keeps (with_request w)) as (He & Hc & _).
    erewrite set_last_pro_update_run;
      [|rewrite He; exact Hdir|rewrite Hc; exact Hd].
    rewrite He. cbn [env with_request]. rewrite Hwr. reflexivity.
Qed.

Lemma fetch_and_cache_failed (w : world) (e : exn) :
  downloaded (remote (env w)) = Raise e ->
  fetch_and_cache_pro_list w = _read_cache (with_request w).
Proof. intros Hdl. rewrite fetch_and_cache_unfold, Hdl. reflexivity. Qed.

Lemma read_cache_state (w : world) : exists r, _read_cache w = (r, w).
Proof.
  exists (fst (_read_cache w)). pose proof (read_cache_frame w) as H.
  destruct (_read_cache w) as [r w']. simpl in *. congruence.
Qed.

Lemma get_pro_list_unfold (force_refresh : bool) (w : world) (last : Q) :
  fst (get_last_pro_update w) = Ok last ->
  get_pro_list force_refresh w
  = if force_refresh || Qgtb (clock (env w) - last)%Q refresh_interval
    then (do pro_map <- fetch_and_cache_pro_list ;
          if bool_decide (pro_map = ∅) then _read_cache else ret pro_map) w
    else _read_cache w.
Proof.
  intros H. unfold get_pro_list. unfold bind at 1.
  pose proof (get_last_pro_update_frame w) as Hf.
  destruct (get_last_pro_update w) as [r w']. simpl in H, Hf. subst.
  unfold bind at 1. unfold time_time.
  destruct (force_refresh || Qgtb (clock (env w) - last)%Q refresh_interval); reflexivity.
Qed.

(** A failed download makes [get_pro_list] return what the cache holds. *)
Lemma get_pro_list_failed (force_refresh : bool) (w : world) (last : Q) (e : exn) :
  fst (get_last_pro_update w) = Ok last ->
  force_refresh || Qgtb (clock (env w) - last)%Q refresh_interval = true ->
  downloaded (remote (env w)) = Raise e ->
  get_pro_list force_refresh w = _read_cache (with_request w).
Proof.
  intros Hlast Hrefresh Hdl. rewrite (get_pro_list_unfold _ _ _ Hlast), Hrefresh.
  unfold bind. rewrite (fetch_and_cache_failed _ _ Hdl).
  destruct (read_cache_state (with_request w)) as [r Hr]. rewrite Hr.
  destruct r as [pro_map|e']; [|reflexivity].
  case_bool_decide; [exact Hr|reflexivity].
Qed.

Lemma refresh_interval_seconds : refresh_interval = 86400%Q.
Proof. reflexivity. Qed.

Lemma Qgtb_true (x y : Q) : Qgtb x y = true <-> (y < x)%Q.
Proof.
  unfold Qgtb. rewrite negb_true_iff. split.
  - intros H. apply Qnot_le_lt. intros Hle. apply Qle_bool_iff in Hle. congruence.
  - intros H. destruct (Qle_bool x y) eqn:E; [|reflexivity].
    apply Qle_bool_iff in E. exfalso. exact (Qlt_not_le _ _ H E).
Qed.

Lemma Qgtb_false (x y : Q) : Qgtb x y = false <-> (x <= y)%Q.
Proof.
  unfold Qgtb. rewrite negb_false_iff. apply Qle_bool_iff.
Qed.

Lemma get_pro_list_raises (force_refresh : bool) (w : world) (e : exn) :
  fst (get_last_pro_update w) = Raise e ->
  get_pro_list force_refresh w = (Raise e, w).
Proof.
  intros H. unfold get_pro_list, bind.
  pose proof (get_last_pro_update_frame w) as Hf.
  destruct (get_last_pro_update w) as [r w']. simpl in H, Hf. subst. reflexivity.
Qed.

(** A completed download makes [get_pro_list] persist the map; an empty
    map is then read back from the cache. *)
Lemma get_pro_list_refreshed (force_refresh : bool) (w : world) (last : Q)
    (pro_map : gmap Z string) :
  fst (get_last_pro_update w) = Ok last ->
  force_refresh || Qgtb (clock (env w) - last)%Q refresh_interval = true ->
  downloaded (remote (env w)) = Ok pro_map ->
  exists d,
    loaded_config (config_file w) = CfgObject d /\
    get_pro_list force_refresh w
    = if bool_decide (pro_map = ∅)
      then _read_cache (after_refresh pro_map d w)
      else (Ok pro_map, after_refresh pro_map d w).
Proof.
  intros Hlast Hrefresh Hdl.
  destruct (get_last_pro_update_ok _ _ Hlast) as (Hdir & d & Hd & _).
  exists d. split; [exact Hd|].
  rewrite (get_pro_list_unfold _ _ _ Hlast), Hrefresh.
  unfold bind. rewrite (fetch_and_cache_ok _ _ _ Hdl Hdir Hd).
  case_bool_decide; reflexivity.
Qed.

Lemma get_pro_list_refreshed_state (force_refresh : bool) (w : world) (last : Q)
    (pro_map : gmap Z string) :
  fst (get_last_pro_update w) = Ok last ->
  force_refresh || Qgtb (clock (env w) - last)%Q refresh_interval = true ->
  downloaded (remote (env w)) = Ok pro_map ->
  exists d,
    loaded_config (config_file w) = CfgObject d /\
    snd (get_pro_list force_refresh w) = after_refresh pro_map d w.
Proof.
  intros Hlast Hrefresh Hdl.
  destruct (get_pro_list_refreshed _ _ _ _ Hlast Hrefresh Hdl) as (d & Hd & Hg).
  exists d. split; [exact Hd|]. rewrite Hg.
  case_bool_decide; [apply read_cache_frame|reflexivity].
Qed.

(** C6.  When the remote answers with an error status (400 to 599, such
    as 500), the download and any [get_pro_list] call around it leave the
    cache file exactly as it was. *)
Theorem http_error_keeps_cache_file (w : world) (status : Z) (body : option pyval)
    (force_refresh : bool) :
  remote (env w) = Response status body ->
  (400 <= status < 600)%Z ->
  cache_file (snd (fetch_and_cache_pro_list w)) = cache_file w /\
  cache_file (snd (get_pro_list force_refresh w)) = cache_file w.
Proof.
  intros Hremote Hstatus.
  assert (Hdl : downloaded (remote (env w)) = Raise HTTPError).
  { rewrite Hremote. unfold downloaded, raise_for_status.
    replace ((400 <=? status)%Z && (status <? 600)%Z) with true; [reflexivity|].
    symmetry. apply andb_true_iff. split; [apply Z.leb_le|apply Z.ltb_lt]; lia. }
  split.
  - rewrite (fetch_and_cache_failed _ _ Hdl), read_cache_frame. reflexivity.
  - destruct (fst (get_last_pro_update w)) as [last|e] eqn:Hlast.
    + rewrite (get_pro_list_unfold _ _ _ Hlast).
      destruct (force_refresh || Qgtb (clock (env w) - last)%Q refresh_interval) eqn:Hc.
      * pose proof (get_pro_list_failed _ _ _ _ Hlast Hc Hdl) as Hg.
        rewrite (get_pro_list_unfold _ _ _ Hlast), Hc in Hg. rewrite Hg.
        rewrite read_cache_frame. reflexivity.
      * rewrite read_cache_frame. reflexivity.
    + rewrite (get_pro_list_raises _ _ _ Hlast). reflexivity.
Qed.

(** C7.  With [last] the stored refresh timestamp, [get_pro_list] makes
    one HTTP request when [force_refresh] is set or more than 86400
    seconds have passed since [last], and none otherwise: at exactly
    86400 seconds the map is not stale. *)
Theorem fetch_iff_forced_or_stale (force_refresh : bool) (w : world) (last : Q) :
  fst (get_last_pro_update w) = Ok last ->
  (http_requests (snd (get_pro_list force_refresh w)) = S (http_requests w) /\
   (force_refresh = true \/ (86400 < clock (env w) - last)%Q))
  \/
  (http_requests (snd (get_pro_list force_refresh w)) = http_requests w /\
   force_refresh = false /\ (clock (env w) - last <= 86400)%Q).
Proof.
  intros Hlast. rewrite <- refresh_interval_seconds.
  destruct (force_refresh || Qgtb (clock (env w) - last)%Q refresh_interval) eqn:Hc.
  - left. split.
    + destruct (downloaded (remote (env w))) as [pro_map|e] eqn:Hdl.
      * destruct (get_pro_list_refreshed_state _ _ _ _ Hlast Hc Hdl) as (d & _ & Hs).
        rewrite Hs. apply after_refresh_keeps.
      * rewrite (get_pro_list_failed _ _ _ _ Hlast Hc Hdl), read_cache_frame.
        reflexivity.
    + apply orb_true_iff in Hc as [Hf|Hs]; [left; exact Hf|right].
      apply Qgtb_true. exact Hs.
  - right. apply orb_false_iff in Hc as [Hf Hs].
    rewrite (get_pro_list_unfold _ _ _ Hlast), Hf, Hs. cbn [orb].
    rewrite read_cache_frame. split; [reflexivity|split; [reflexivity|]].
    apply Qgtb_false. exact Hs.
Qed.

(** C10.  An unforced call made no more than 86400 seconds after the
    stored timestamp is exactly a cache read: no request, no write to the
    cache file or to the configuration, the world is left as it was. *)
Theorem fresh_call_is_a_cache_read (w : world) (last : Q) :
  fst (get_last_pro_update w) = Ok last ->
  (clock (env w) - last <= 86400)%Q ->
  get_pro_list false w = _read_cache w /\
  snd (get_pro_list false w) = w.
Proof.
  intros Hlast Hfresh. rewrite <- refresh_interval_seconds in Hfresh.
  apply Qgtb_false in Hfresh.
  rewrite (get_pro_list_unfold _ _ _ Hlast), Hfresh. cbn [orb].
  split; [reflexivity|apply read_cache_frame].
Qed.

Lemma read_cache_string_keyed (w : world) (pro_map : gmap Z string) :
  dir_ok (env w) = true ->
  cache_file w = Holds (string_keyed pro_map) ->
  fst (_read_cache w) = Ok pro_map.
Proof.
  intros Hdir Hfile. unfold _read_cache, _get_cache_path, _ensure_config_dir.
  run_py. rewrite Hdir, Hfile. unfold string_keyed. simpl.
  rewrite int_keyed_string_keyed, fold_put_entry_map_to_list. reflexivity.
Qed.

Lemma read_cache_with_request (w : world) :
  fst (_read_cache (with_request w)) = fst (_read_cache w).
Proof.
  unfold _read_cache, _get_cache_path, _ensure_config_dir, with_request. run_py.
  destruct (dir_ok (env w)); [|reflexivity].
  destruct (cache_file w) as [|raw|doc]; simpl; try reflexivity.
  destruct (py_items doc) as [items|e]; simpl; [|reflexivity].
  destruct (int_keyed items ∅); reflexivity.
Qed.

(** C3, as the code has it.  On a refresh (forced or stale) with a
    writable disk: a failed download persists nothing and the call
    returns what the cache holds; a completed download, with an empty map
    as well, is written to the cache file and stamps the configuration
    with the current time, and the call returns the downloaded map, which
    is then also what the cache yields. *)
Theorem refresh_outcome (force_refresh : bool) (w : world) (last : Q) :
  fst (get_last_pro_update w) = Ok last ->
  force_refresh || Qgtb (clock (env w) - last)%Q refresh_interval = true ->
  disk_writable (env w) = true ->
  match downloaded (remote (env w)) with
  | Raise _ =>
      fst (get_pro_list force_refresh w) = fst (_read_cache w) /\
      cache_file (snd (get_pro_list force_refresh w)) = cache_file w /\
      config_file (snd (get_pro_list force_refresh w)) = config_file w
  | Ok pro_map =>
      fst (get_pro_list force_refresh w) = Ok pro_map /\
      fst (_read_cache (snd (get_pro_list force_refresh w))) = Ok pro_map /\
      cache_file (snd (get_pro_list force_refresh w)) = Holds (string_keyed pro_map) /\
      fst (get_last_pro_update (snd (get_pro_list force_refresh w))) = Ok (clock (env w))
  end.
Proof.
  intros Hlast Hrefresh Hwr.
  destruct (downloaded (remote (env w))) as [pro_map|e] eqn:Hdl.
  - destruct (get_pro_list_refreshed _ _ _ _ Hlast Hrefresh Hdl) as (d & Hd & Hg).
    unfold after_refresh in Hg. rewrite Hwr in Hg.
    destruct (get_last_pro_update_ok _ _ Hlast) as (Hdir & _).
    set (w' := with_config _ _) in Hg.
    assert (Hread : fst (_read_cache w') = Ok pro_map)
      by (apply read_cache_string_keyed; [exact Hdir|reflexivity]).
    assert (Hstate : snd (get_pro_list force_refresh w) = w')
      by (rewrite Hg; case_bool_decide; [apply read_cache_frame|reflexivity]).
    rewrite Hstate. repeat split.
    + rewrite Hg. case_bool_decide; [exact Hread|reflexivity].
    + exact Hread.
    + erewrite get_last_pro_update_run; [|exact Hdir|reflexivity].
      cbn [fst]. unfold stamp_of. rewrite cfg_assoc_update. reflexivity.
  - rewrite (get_pro_list_failed _ _ _ _ Hlast Hrefresh Hdl), read_cache_frame.
    rewrite read_cache_with_request. repeat split.
Qed.

(** C4, as the code has it.  A forced call makes one HTTP request
    whatever timestamp is stored.  If the download fails the
    configuration, and the timestamp in it, stay as they were.  If it
    completes, the stored timestamp becomes the clock reading of the
    call, be it later than the old timestamp or not, when the
    configuration is written; it stays as it was when the configuration
    cannot be opened for writing, and reads as 0 when the write fails
    after the open. *)
Theorem forced_refresh_sets_clock (w : world) (last : Q) :
  fst (get_last_pro_update w) = Ok last ->
  http_requests (snd (get_pro_list true w)) = S (http_requests w) /\
  match downloaded (remote (env w)) with
  | Raise _ =>
      config_file (snd (get_pro_list true w)) = config_file w /\
      fst (get_last_pro_update (snd (get_pro_list true w))) = Ok last
  | Ok _ =>
      fst (get_last_pro_update (snd (get_pro_list true w)))
      = Ok (if disk_writable (env w) then clock (env w)
            else match disk_failure (env w) with
                 | OpenFails => last
                 | DumpFails _ => 0%Q
                 end)
  end.
Proof.
  intros Hlast.
  assert (Hrefresh : true || Qgtb (clock (env w) - last)%Q refresh_interval = true)
    by reflexivity.
  destruct (get_last_pro_update_ok _ _ Hlast) as (Hdir & d0 & Hd0 & Hstamp).
  destruct (downloaded (remote (env w))) as [pro_map|e] eqn:Hdl.
  - destruct (get_pro_list_refreshed_state _ _ _ _ Hlast Hrefresh Hdl) as (d & Hd & Hs).
    rewrite Hs. split; [apply after_refresh_keeps|].
    unfold after_refresh. destruct (disk_writable (env w)).
    + erewrite get_last_pro_update_run; [|exact Hdir|reflexivity].
      cbn [fst]. unfold stamp_of. rewrite cfg_assoc_update. reflexivity.
    + unfold failed_cache_write. change (env (with_request w)) with (env w).
      destruct (disk_failure (env w)) as [|written] eqn:Hf; unfold failed_config_write.
      * change (env (with_request w)) with (env w). rewrite Hf.
        erewrite get_last_pro_update_run; [|exact Hdir|exact Hd0].
        cbn [fst]. exact Hstamp.
      * change (env (with_cache (Garbled written) (with_request w))) with (env w).
        rewrite Hf.
        erewrite get_last_pro_update_run; [|exact Hdir|reflexivity]. reflexivity.
  - rewrite (get_pro_list_failed _ _ _ _ Hlast Hrefresh Hdl), read_cache_frame.
    split; [reflexivity|]. split; [reflexivity|].
    erewrite get_last_pro_update_run; [|exact Hdir|exact Hd0].
    cbn [fst]. exact Hstamp.
Qed.

(** ** The pro-list functions emit no signal and keep the surroundings *)

Lemma quiet_refl (w : world) : quiet w w.
Proof. split; reflexivity. Qed.

Lemma quiet_trans (w1 w2 w3 : world) : quiet w1 w2 -> quiet w2 w3 -> quiet w1 w3.
Proof. intros [H1 H2] [H3 H4]. split; congruence. Qed.

Lemma keeps_quiet_ret {A} (a : A) : keeps_quiet (ret a).
Proof. intros w. apply quiet_refl. Qed.

Lemma keeps_quiet_lift {A} (r : result A) : keeps_quiet (lift r).
Proof. intros w. apply quiet_refl. Qed.

Lemma keeps_quiet_bind {A B} (m : Py A) (k : A -> Py B) :
  keeps_quiet m -> (forall a, keeps_quiet (k a)) -> keeps_quiet (bind m k).
Proof.
  intros Hm Hk w. unfold bind. specialize (Hm w).
  destruct (m w) as [[a|e] w1]; simpl in Hm; [|exact Hm].
  eapply quiet_trans; [exact Hm|apply Hk].
Qed.

Lemma keeps_quiet_try_except {A} (body : Py A) (handler : exn -> Py A) :
  keeps_quiet body -> (forall e, keeps_quiet (handler e)) ->
  keeps_quiet (try_except body handler).
Proof.
  intros Hb Hh w. unfold try_except. specialize (Hb w).
  destruct (body w) as [[a|e] w1]; simpl in Hb; [exact Hb|].
  eapply quiet_trans; [exact Hb|apply Hh].
Qed.

Lemma keeps_quiet_mkdir : keeps_quiet mkdir_parents_exist_ok.
Proof.
  intros w. unfold mkdir_parents_exist_ok.
  destruct (dir_ok (env w)); apply quiet_refl.
Qed.

Lemma keeps_quiet_dump_cache (doc : pyval) : keeps_quiet (dump_cache doc).
Proof.
  intros w. unfold dump_cache. destruct (disk_writable (env w)); [split; reflexivity|].
  destruct (failed_cache_write_keeps w) as (He & _ & _ & Hm). split; assumption.
Qed.

Lemma keeps_quiet_dump_config (doc : cfgdoc) : keeps_quiet (dump_config doc).
Proof.
  intros w. unfold dump_config. destruct (disk_writable (env w)); [split; reflexivity|].
  destruct (failed_config_write_keeps w) as (He & _ & _ & Hm). split; assumption.
Qed.

Lemma keeps_quiet_requests_get : keeps_quiet requests_get.
Proof.
  intros w. unfold requests_get. destruct (remote (env w)); split; reflexivity.
Qed.

Lemma keeps_quiet_frame {A} (m : Py A) :
  (forall w, snd (m w) = w) -> keeps_quiet m.
Proof. intros H w. rewrite H. apply quiet_refl. Qed.

Lemma keeps_quiet_write_config (cfg : cfgdoc) : keeps_quiet (_write_config cfg).
Proof.
  unfold _write_config, _get_config_path, _ensure_config_dir.
  apply keeps_quiet_bind; [apply keeps_quiet_mkdir|intros _].
  apply keeps_quiet_try_except; [apply keeps_quiet_dump_config|].
  intros _. apply keeps_quiet_ret.
Qed.

Lemma keeps_quiet_set_last_pro_update (ts : Q) : keeps_quiet (set_last_pro_update ts).
Proof.
  unfold set_last_pro_update.
  apply keeps_quiet_bind; [apply keeps_quiet_frame, read_config_frame|intros cfg].
  apply keeps_quiet_bind; [apply keeps_quiet_lift|intros cfg'].
  apply keeps_quiet_write_config.
Qed.

Lemma keeps_quiet_write_cache (pro_map : gmap Z string) :
  keeps_quiet (_write_cache pro_map).
Proof.
  unfold _write_cache, _get_cache_path, _ensure_config_dir.
  apply keeps_quiet_bind; [apply keeps_quiet_mkdir|intros _].
  apply keeps_quiet_try_except; [apply keeps_quiet_dump_cache|].
  intros _. apply keeps_quiet_ret.
Qed.

Lemma keeps_quiet_read_cache : keeps_quiet _read_cache.
Proof. apply keeps_quiet_frame, read_cache_frame. Qed.

Lemma keeps_quiet_fetch_and_cache : keeps_quiet fetch_and_cache_pro_list.
Proof.
  unfold fetch_and_cache_pro_list.
  apply keeps_quiet_try_except; [|intros _; apply keeps_quiet_read_cache].
  apply keeps_quiet_bind; [apply keeps_quiet_requests_get|intros [status body]].
  apply keeps_quiet_bind; [apply keeps_quiet_lift|intros _].
  apply keeps_quiet_bind; [apply keeps_quiet_lift|intros data].
  apply keeps_quiet_bind; [apply keeps_quiet_lift|intros items].
  apply keeps_quiet_bind; [apply keeps_quiet_lift|intros pro_map].
  apply keeps_quiet_bind; [apply keeps_quiet_write_cache|intros _].
  apply keeps_quiet_bind; [apply keeps_quiet_frame; reflexivity|intros now].
  apply keeps_quiet_bind; [apply keeps_quiet_set_last_pro_update|intros _].
  apply keeps_quiet_ret.
Qed.

Lemma keeps_quiet_get_pro_list (force_refresh : bool) :
  keeps_quiet (get_pro_list force_refresh).
Proof.
  unfold get_pro_list.
  apply keeps_quiet_bind;
    [apply keeps_quiet_frame, get_last_pro_update_frame|intros last_update].
  apply keeps_quiet_bind; [apply keeps_quiet_frame; reflexivity|intros now].
  destruct (force_refresh || Qgtb (now - last_update)%Q refresh_interval);
    [|apply keeps_quiet_read_cache].
  apply keeps_quiet_bind; [apply keeps_quiet_fetch_and_cache|intros pro_map].
  case_bool_decide; [apply keeps_quiet_read_cache|apply keeps_quiet_ret].
Qed.

Lemma pro_driver_of_never (pro_map : gmap Z string) (drv : pyval) :
  forall d, pro_driver_of pro_map drv <> Ok (Some d).
Proof.
  intros d. unfold pro_driver_of.
  destruct (py_get drv "UserID" PyNone) as [u|e]; [|discriminate]. cbn [rbind].
  destruct (py_int u) as [uid|e]; [|discriminate]. cbn [rbind].
  destruct (pro_map !! uid) as [entry|]; discriminate.
Qed.

Lemma collect_pro_drivers_nothing (pro_map : gmap Z string) (drivers : list pyval) :
  forall acc, collect_pro_drivers pro_map drivers acc = acc.
Proof.
  induction drivers as [|drv rest IH]; intros acc; [reflexivity|].
  cbn [collect_pro_drivers].
  pose proof (pro_driver_of_never pro_map drv) as Hn.
  destruct (pro_driver_of pro_map drv) as [[d|]|e]; [|apply IH..].
  exfalso. exact (Hn d eq_refl).
Qed.

Lemma state_fields_read (w : world) :
  exists s t,
    try_except_of [KeyError]
      (do s <- ir_getitem "SessionState" ;
       do t <- ir_getitem "IsOnTrack" ;
       ret (s, t))
      (ret (PyInt 0, PyInt 0)) w = (Ok (s, t), w) /\
    py_eq_int s 4 && py_eq_int t 1 = spec_active_flag (ir (env w)).
Proof.
  unfold spec_active_flag, try_except_of, ir_getitem, bind, telemetry, ret, lift.
  destruct (assoc "SessionState" (ir_vars (ir (env w)))) as [s|].
  - destruct (assoc "IsOnTrack" (ir_vars (ir (env w)))) as [t|].
    + exists s, t. split; reflexivity.
    + exists (PyInt 0), (PyInt 0). split; reflexivity.
  - exists (PyInt 0), (PyInt 0). split; reflexivity.
Qed.

Lemma loop_body_disconnected (w : world) :
  connected (env w) = false ->
  loop_body w = (Ok tt, with_signal (session_active false) w).
Proof.
  intros Hc. unfold connected in Hc. unfold loop_body, bind at 1, telemetry at 1.
  rewrite Hc. reflexivity.
Qed.

Lemma loop_body_connected (w : world) :
  connected (env w) = true ->
  loop_body w =
    (let active := spec_active_flag (ir (env w)) in
     emit (session_active active) ;;
     (if active
      then
       do drivers <-
         try_except
           (do driver_info <- ir_getitem "DriverInfo" ;
            if isinstance_dict driver_info
            then lift (py_get driver_info "Drivers" (PyList []))
            else ret (PyList []))
           (fun _ => ret (PyList [])) ;
       do pro_map <- get_pro_list false ;
       do drvs <- lift (py_iter drivers) ;
       emit (drivers_updated (collect_pro_drivers pro_map drvs []))
      else emit (drivers_updated [])) ;;
     time_sleep) w.
Proof.
  intros Hc. unfold connected in Hc. unfold loop_body, bind at 1, telemetry at 1.
  rewrite Hc. cbn [negb].
  destruct (state_fields_read w) as (s & t & Hread & Hflag).
  unfold bind at 1. rewrite Hread. cbv zeta. rewrite Hflag. reflexivity.
Qed.

Lemma loop_body_inactive (w : world) :
  connected (env w) = true ->
  spec_active_flag (ir (env w)) = false ->
  loop_body w
  = (Ok tt, with_signal (drivers_updated []) (with_signal (session_active false) w)).
Proof.
  intros Hc Hflag. rewrite (loop_body_connected _ Hc). cbv zeta. rewrite Hflag.
  reflexivity.
Qed.

(** What the [try] part of the DriverInfo read evaluates to. *)
Lemma drivers_read (w : world) :
  exists drivers,
    try_except
      (do driver_info <- ir_getitem "DriverInfo" ;
       if isinstance_dict driver_info
       then lift (py_get driver_info "Drivers" (PyList []))
       else ret (PyList []))
      (fun _ => ret (PyList [])) w = (Ok drivers, w).
Proof.
  unfold try_except, ir_getitem, bind, telemetry, ret, lift.
  destruct (assoc "DriverInfo" (ir_vars (ir (env w)))) as [info|].
  - destruct (isinstance_dict info) eqn:Hd; [|eexists; reflexivity].
    destruct (py_get info "Drivers" (PyList [])) as [drivers|e]; eexists; reflexivity.
  - eexists; reflexivity.
Qed.

Lemma loop_body_active (w : world) :
  connected (env w) = true ->
  spec_active_flag (ir (env w)) = true ->
  exists r w2,
    loop_body w = (r, w2) /\
    env w2 = env w /\
    ((r = Ok tt /\
      emitted w2 = emitted w ++ [session_active true; drivers_updated []]) \/
     (exists e, r = Raise e /\ emitted w2 = emitted w ++ [session_active true])).
Proof.
  intros Hc Hflag. rewrite (loop_body_connected _ Hc). cbv zeta. rewrite Hflag.
  unfold bind at 1. unfold emit at 1.
  set (w1 := with_signal (session_active true) w).
  destruct (drivers_read w1) as [drivers Hdrv].
  unfold bind at 1. unfold bind at 1. rewrite Hdrv.
  unfold bind at 1.
  pose proof (keeps_quiet_get_pro_list false w1) as [Henv Hem].
  destruct (get_pro_list false w1) as [[pro_map|e] w2]; cbn [snd] in Henv, Hem.
  - unfold bind at 1. unfold lift at 1.
    destruct (py_iter drivers) as [drvs|e].
    + rewrite collect_pro_drivers_nothing. cbn.
      eexists _, _. split; [reflexivity|]. split; [exact Henv|]. left.
      split; [reflexivity|]. cbn. rewrite Hem. cbn. rewrite <- app_assoc. reflexivity.
    + eexists _, _. split; [reflexivity|]. split; [exact Henv|]. right.
      exists e. split; [reflexivity|exact Hem].
  - eexists _, _. split; [reflexivity|]. split; [exact Henv|]. right.
    exists e. split; [reflexivity|exact Hem].
Qed.

(** The signals one pass of the loop adds: the flag, and after it at most
    one entry list, which is empty. *)
Lemma loop_iteration_signals (w : world) :
  fst (loop_iteration w) = Ok tt /\
  env (snd (loop_iteration w)) = env w /\
  exists tail,
    emitted (snd (loop_iteration w))
    = emitted w
      ++ session_active (connected (env w) && spec_active_flag (ir (env w))) :: tail /\
    (tail = [] \/ tail = [drivers_updated []]).
Proof.
  unfold loop_iteration, try_except.
  destruct (connected (env w)) eqn:Hc.
  - destruct (spec_active_flag (ir (env w))) eqn:Hflag.
    + destruct (loop_body_active _ Hc Hflag)
        as (r & w2 & Hb & Henv & [[-> Hem]|(e & -> & Hem)]); rewrite Hb; cbn.
      * repeat split; [exact Henv|]. exists [drivers_updated []].
        split; [exact Hem|right; reflexivity].
      * repeat split; [exact Henv|]. exists []. split; [exact Hem|left; reflexivity].
    + rewrite (loop_body_inactive _ Hc Hflag). cbn.
      repeat split. exists [drivers_updated []].
      rewrite <- app_assoc. split; [reflexivity|right; reflexivity].
  - rewrite (loop_body_disconnected _ Hc). cbn.
    repeat split. exists []. split; [reflexivity|left; reflexivity].
Qed.

Lemma run_is_loop (ticks : list environment) (w : world) :
  _run ticks w = while_running ticks w.
Proof. reflexivity. Qed.

Lemma run_nil (w : world) : _run [] w = (Ok tt, w).
Proof. reflexivity. Qed.

Lemma run_cons (t : environment) (rest : list environment) (w : world) :
  _run (t :: rest) w = _run rest (snd (loop_iteration (with_env t w))).
Proof.
  rewrite !run_is_loop. cbn [while_running]. unfold bind at 1. unfold surroundings.
  unfold bind at 1.
  destruct (loop_iteration_signals (with_env t w)) as (Hok & _).
  destruct (loop_iteration (with_env t w)) as [r w']. cbn [fst snd] in *.
  rewrite Hok. reflexivity.
Qed.

Lemma run_never_raises (ticks : list environment) :
  forall w, fst (_run ticks w) = Ok tt.
Proof.
  induction ticks as [|t rest IH]; intros w; [reflexivity|].
  rewrite run_cons. apply IH.
Qed.

Lemma run_app (pre post : list environment) :
  forall w, _run (pre ++ post) w = _run post (snd (_run pre w)).
Proof.
  induction pre as [|t pre IH]; intros w; [reflexivity|].
  cbn [app]. rewrite !run_cons. apply IH.
Qed.

Lemma active_flags_app (a b : list signal) :
  active_flags (a ++ b) = active_flags a ++ active_flags b.
Proof.
  induction a as [|[f|l] a IH]; cbn; [reflexivity|f_equal; exact IH|exact IH].
Qed.

Lemma observed_entries_app (a b : list signal) :
  forall held, observed_entries (a ++ b) held = observed_entries b (observed_entries a held).
Proof.
  induction a as [|[f|l] a IH]; intros held; cbn; [reflexivity|apply IH..].
Qed.

Lemma active_flags_tail (tail : list signal) :
  tail = [] \/ tail = [drivers_updated []] -> active_flags tail = [].
Proof. intros [->| ->]; reflexivity. Qed.

Lemma observed_entries_tail (b : bool) (tail : list signal) :
  tail = [] \/ tail = [drivers_updated []] ->
  observed_entries (session_active b :: tail) [] = [].
Proof. intros [->| ->]; reflexivity. Qed.

(** C2.  In any run, after any ticks before it, a tick that finds the
    source initialised and connected emits exactly one active flag, whose
    value is (session state == 4 and on-track == 1) on that tick's fields,
    both taken as 0 when one is missing; nothing of the earlier ticks
    enters it. *)
Theorem active_flag_on_connected_tick (pre : list environment) (t : environment)
    (w : world) :
  connected t = true ->
  active_flags (emitted (snd (_run (pre ++ [t]) w)))
  = active_flags (emitted (snd (_run pre w))) ++ [spec_active_flag (ir t)].
Proof.
  intros Hc. rewrite run_app, run_cons, run_nil. cbn [snd].
  set (w1 := snd (_run pre w)).
  destruct (loop_iteration_signals (with_env t w1)) as (_ & _ & tail & Hem & Htail).
  rewrite Hem. cbn [with_env env emitted]. rewrite Hc. cbn [andb].
  rewrite active_flags_app. cbn [active_flags].
  rewrite (active_flags_tail _ Htail). reflexivity.
Qed.

Lemma run_disconnected (span : list environment) :
  Forall (fun t => connected t = false) span ->
  forall w,
    emitted (snd (_run span w))
    = emitted w ++ repeat (session_active false) (length span).
Proof.
  induction 1 as [|t span Ht _ IH]; intros w.
  - rewrite run_nil. cbn. rewrite app_nil_r. reflexivity.
  - rewrite run_cons, IH. unfold loop_iteration, try_except.
    rewrite loop_body_disconnected by exact Ht.
    cbn. rewrite <- app_assoc. reflexivity.
Qed.

Lemma run_observed_empty (ticks : list environment) :
  forall w,
    observed_entries (emitted w) [] = [] ->
    observed_entries (emitted (snd (_run ticks w))) [] = [].
Proof.
  induction ticks as [|t rest IH]; intros w Hw; [exact Hw|].
  rewrite run_cons. apply IH.
  destruct (loop_iteration_signals (with_env t w)) as (_ & _ & tail & Hem & Htail).
  rewrite Hem. cbn [with_env emitted]. rewrite observed_entries_app, Hw.
  apply observed_entries_tail. exact Htail.
Qed.

(** C8.  Through a span of ticks that find the source not initialised or
    not connected, after any ticks before it: each tick of the span emits
    [session_active false] and nothing else, and the entry list the
    subscriber holds is empty after each of them (a subscriber that held
    the empty list when the run began). *)
Theorem disconnected_span_inactive_and_empty (pre span : list environment)
    (w : world) (k : nat) :
  observed_entries (emitted w) [] = [] ->
  Forall (fun t => connected t = false) span ->
  emitted (snd (_run (pre ++ firstn k span) w))
  = emitted (snd (_run pre w))
    ++ repeat (session_active false) (length (firstn k span)) /\
  observed_entries (emitted (snd (_run (pre ++ firstn k span) w))) [] = [].
Proof.
  intros Hw Hspan. split.
  - rewrite run_app. apply run_disconnected. apply Forall_take. exact Hspan.
  - apply run_observed_empty. exact Hw.
Qed.

(** C9, as the code has it.  When the body of a tick raises, the handler
    of the loop catches the exception and emits nothing: the tick has then
    emitted the active flag [true] and no entry list, and the loop goes on
    with the next tick. *)
Theorem exception_in_tick_is_swallowed (t : environment) (rest : list environment)
    (w w' : world) (e : exn) :
  loop_body (with_env t w) = (Raise e, w') ->
  loop_iteration (with_env t w) = (Ok tt, w') /\
  emitted w' = emitted w ++ [session_active true] /\
  _run (t :: rest) w = _run rest w'.
Proof.
  intros Hb.
  assert (Hit : loop_iteration (with_env t w) = (Ok tt, w'))
    by (unfold loop_iteration, try_except; rewrite Hb; reflexivity).
  split; [exact Hit|]. split.
  - destruct (connected (env (with_env t w))) eqn:Hc.
    + destruct (spec_active_flag (ir (env (with_env t w)))) eqn:Hflag.
      * destruct (loop_body_active _ Hc Hflag)
          as (r & w2 & Hb2 & _ & [[-> _]|(e2 & -> & Hem)]);
          rewrite Hb in Hb2; [discriminate Hb2|].
        injection Hb2 as _ ->. exact Hem.
      * rewrite (loop_body_inactive _ Hc Hflag) in Hb. discriminate Hb.
    + rewrite (loop_body_disconnected _ Hc) in Hb. discriminate Hb.
  - rewrite run_cons, Hit. reflexivity.
Qed.

(** C1.  The filtering example on the code: with Alice (1) and Carol (3)
    in the pro map and drivers 1, 2 and 3 on track, the tick emits the
    active flag and an empty entry list.  A value of the pro map is a
    [str], so [entry.get] raises [AttributeError] for every driver found
    in the map and the driver is skipped. *)
Theorem filtering_example_emits_no_entries :
  fst (get_pro_list false filtering_world)
  = Ok {[1%Z := "Alice"; 3%Z := "Carol"]} /\
  pro_driver_of {[1%Z := "Alice"; 3%Z := "Carol"]}
    (PyDict [("UserID", PyInt 1); ("CarNumber", PyStr "12")])
  = Raise AttributeError /\
  emitted (snd (loop_iteration filtering_world))
  = [session_active true; drivers_updated []].
Proof. vm_compute. repeat split. Qed.

(** ** The theorems at concrete worlds *)

Lemma active_flag_on_connected_tick_witness :
  connected (env filtering_world) = true /\
  active_flags (emitted (snd (_run ([] ++ [env filtering_world]) filtering_world)))
  = active_flags (emitted (snd (_run [] filtering_world)))
    ++ [spec_active_flag (ir (env filtering_world))].
Proof.
  split; [reflexivity|].
  apply (active_flag_on_connected_tick [] (env filtering_world) filtering_world).
  reflexivity.
Defined.

(** The claim of C3 fails here: the download completes with an empty
    map, and still the cache file is overwritten (Alice is gone) and the
    timestamp moves from 900 to 1000. *)
Lemma empty_download_is_persisted :
  downloaded (remote (env empty_download_world)) = Ok ∅ /\
  cache_file empty_download_world = Holds (PyDict [("1", PyStr "Alice")]) /\
  cache_file (snd (get_pro_list true empty_download_world)) = Holds (PyDict []) /\
  fst (get_last_pro_update empty_download_world) = Ok 900%Q /\
  fst (get_last_pro_update (snd (get_pro_list true empty_download_world)))
  = Ok 1000%Q.
Proof. vm_compute. repeat split. Qed.

Lemma refresh_outcome_witness :
  fst (get_last_pro_update empty_download_world) = Ok 900%Q /\
  disk_writable (env empty_download_world) = true /\
  fst (get_pro_list true empty_download_world) = Ok ∅ /\
  fst (_read_cache (snd (get_pro_list true empty_download_world))) = Ok ∅ /\
  cache_file (snd (get_pro_list true empty_download_world))
  = Holds (string_keyed ∅) /\
  fst (get_last_pro_update (snd (get_pro_list true empty_download_world)))
  = Ok (clock (env empty_download_world)).
Proof.
  split; [reflexivity|]. split; [reflexivity|].
  pose proof (refresh_outcome true empty_download_world 900%Q
                eq_refl eq_refl eq_refl) as H.
  assert (Hdl : downloaded (remote (env empty_download_world)) = Ok ∅)
    by (vm_compute; reflexivity).
  rewrite Hdl in H. exact H.
Defined.

(** The claim of C4 fails here: the download completes, the disk is
    writable, and the stored timestamp goes from 2000 back to the clock
    reading 1000. *)
Lemma stamp_follows_clock_backwards :
  fst (get_last_pro_update clock_behind_world) = Ok 2000%Q /\
  fst (get_pro_list true clock_behind_world)
  = Ok {[1%Z := "Alice"; 3%Z := "Carol"]} /\
  fst (get_last_pro_update (snd (get_pro_list true clock_behind_world)))
  = Ok 1000%Q /\
  ~ (2000 < 1000)%Q.
Proof. vm_compute. repeat split. discriminate. Qed.

Lemma forced_refresh_sets_clock_witness :
  fst (get_last_pro_update good_download_world) = Ok 900%Q /\
  http_requests (snd (get_pro_list true good_download_world)) = 1 /\
  fst (get_last_pro_update (snd (get_pro_list true good_download_world)))
  = Ok (clock (env good_download_world)).
Proof.
  split; [reflexivity|].
  pose proof (forced_refresh_sets_clock good_download_world 900%Q eq_refl) as [Hreq H].
  split; [exact Hreq|].
  assert (Hdl : downloaded (remote (env good_download_world))
                = Ok {[1%Z := "Alice"; 3%Z := "Carol"]})
    by (vm_compute; reflexivity).
  rewrite Hdl in H. exact H.
Defined.

(** The claim of C5 fails here: [_write_cache] swallows a failed write.
    When the cache file cannot be opened for writing, reading gives back
    the old content, Carol, instead of the map that was to be written;
    when the write fails after the open, the file is left empty and
    reading gives the empty map. *)
Lemma unwritten_cache_is_not_read_back :
  fst (_write_cache {[1%Z := "Alice"]} read_only_world) = Ok tt /\
  fst (_read_cache (snd (_write_cache {[1%Z := "Alice"]} read_only_world)))
  = Ok {[3%Z := "Carol"]} /\
  fst (_write_cache {[1%Z := "Alice"]} full_disk_world) = Ok tt /\
  fst (_read_cache (snd (_write_cache {[1%Z := "Alice"]} full_disk_world)))
  = Ok ∅ /\
  ({[3%Z := "Carol"]} : gmap Z string) !! 1%Z = None /\
  (∅ : gmap Z string) !! 1%Z = None /\
  ({[1%Z := "Alice"]} : gmap Z string) !! 1%Z = Some "Alice".
Proof. vm_compute. repeat split. Qed.

Lemma cache_round_trip_witness :
  dir_ok (env first_run_world_stamped) = true /\
  disk_writable (env first_run_world_stamped) = true /\
  printable_keys {[1%Z := "Alice"; 3%Z := "Carol"]} = true /\
  cache_file first_run_world_stamped = Absent /\
  fst (_read_cache
         (snd (_write_cache {[1%Z := "Alice"; 3%Z := "Carol"]}
                 first_run_world_stamped)))
  = Ok {[1%Z := "Alice"; 3%Z := "Carol"]}.
Proof.
  split; [reflexivity|]. split; [reflexivity|].
  split; [vm_compute; reflexivity|]. split; [reflexivity|].
  apply (cache_round_trip {[1%Z := "Alice"; 3%Z := "Carol"]} first_run_world_stamped);
    [reflexivity|reflexivity|vm_compute; reflexivity].
Defined.

Lemma http_error_keeps_cache_file_witness :
  remote (env server_error_world) = Response 500 None /\
  (400 <= 500 < 600)%Z /\
  cache_file (snd (fetch_and_cache_pro_list server_error_world))
  = cache_file server_error_world /\
  cache_file (snd (get_pro_list true server_error_world))
  = cache_file server_error_world.
Proof.
  split; [reflexivity|]. split; [lia|].
  apply (http_error_keeps_cache_file server_error_world 500 None true);
    [reflexivity|lia].
Defined.

Lemma fetch_iff_forced_or_stale_witness :
  fst (get_last_pro_update boundary_world) = Ok 1000%Q /\
  ((http_requests (snd (get_pro_list false boundary_world))
    = S (http_requests boundary_world) /\
    (false = true \/ (86400 < clock (env boundary_world) - 1000)%Q))
   \/
   (http_requests (snd (get_pro_list false boundary_world))
    = http_requests boundary_world /\
    false = false /\ (clock (env boundary_world) - 1000 <= 86400)%Q)).
Proof.
  split; [reflexivity|].
  apply (fetch_iff_forced_or_stale false boundary_world 1000%Q). reflexivity.
Defined.

Lemma fresh_call_is_a_cache_read_witness :
  fst (get_last_pro_update filtering_world) = Ok 900%Q /\
  (clock (env filtering_world) - 900 <= 86400)%Q /\
  get_pro_list false filtering_world = _read_cache filtering_world /\
  snd (get_pro_list false filtering_world) = filtering_world.
Proof.
  split; [reflexivity|]. split; [vm_compute; discriminate|].
  apply (fresh_call_is_a_cache_read filtering_world 900%Q);
    [reflexivity|vm_compute; discriminate].
Defined.

Lemma disconnected_span_inactive_and_empty_witness :
  observed_entries (emitted filtering_world) [] = [] /\
  Forall (fun t => connected t = false)
    [env boundary_world; env server_error_world] /\
  emitted
    (snd (_run ([env filtering_world]
                ++ firstn 2 [env boundary_world; env server_error_world])
            filtering_world))
  = emitted (snd (_run [env filtering_world] filtering_world))
    ++ repeat (session_active false)
         (length (firstn 2 [env boundary_world; env server_error_world])) /\
  observed_entries
    (emitted
       (snd (_run ([env filtering_world]
                   ++ firstn 2 [env boundary_world; env server_error_world])
               filtering_world))) [] = [].
Proof.
  split; [reflexivity|].
  split; [repeat constructor|].
  apply (disconnected_span_inactive_and_empty [env filtering_world]
           [env boundary_world; env server_error_world] filtering_world 2);
    [reflexivity|repeat constructor].
Defined.

(** The claim of C9 fails here: the tick raises [TypeError] at the loop
    over the drivers, after the active flag [true] went out; the handler
    emits nothing, so the tick ends with that flag and no entry list. *)
Lemma raising_tick_has_emitted_active :
  emitted null_drivers_world = [] /\
  fst (loop_body null_drivers_world) = Raise TypeError /\
  fst (loop_iteration null_drivers_world) = Ok tt /\
  emitted (snd (loop_iteration null_drivers_world)) = [session_active true].
Proof. vm_compute. repeat split. Qed.

Lemma exception_in_tick_is_swallowed_witness :
  loop_body (with_env (env null_drivers_world) null_drivers_world)
  = (Raise TypeError, with_signal (session_active true) null_drivers_world) /\
  loop_iteration (with_env (env null_drivers_world) null_drivers_world)
  = (Ok tt, with_signal (session_active true) null_drivers_world) /\
  emitted (with_signal (session_active true) null_drivers_world)
  = emitted null_drivers_world ++ [session_active true] /\
  _run [env null_drivers_world; env boundary_world] null_drivers_world
  = _run [env boundary_world] (with_signal (session_active true) null_drivers_world).
Proof.
  assert (Hb : loop_body (with_env (env null_drivers_world) null_drivers_world)
               = (Raise TypeError,
                  with_signal (session_active true) null_drivers_world))
    by (vm_compute; reflexivity).
  split; [exact Hb|].
  apply (exception_in_tick_is_swallowed (env null_drivers_world)
           [env boundary_world] null_drivers_world _ TypeError Hb).
Defined.

(** * Further properties *)

(** ** The configuration file *)

Lemma cfg_assoc_update_other (k k' : string) (v : cfgval) (d : list (string * cfgval)) :
  k <> k' -> cfg_assoc k' (cfg_update k v d) = cfg_assoc k' d.
Proof.
  intros Hne. induction d as [|[k0 v0] d IH]; simpl.
  - destruct (String.eqb k' k) eqn:E; [|reflexivity].
    apply String.eqb_eq in E. congruence.
  - destruct (String.eqb k k0) eqn:E; simpl.
    + apply String.eqb_eq in E. subst k0.
      destruct (String.eqb k' k) eqn:E'; [|reflexivity].
      apply String.eqb_eq in E'. congruence.
    + destruct (String.eqb k' k0); [reflexivity|exact IH].
Qed.

Lemma config_usable_object (w : world) :
  config_usable w ->
  dir_ok (env w) = true /\ exists d, loaded_config (config_file w) = CfgObject d.
Proof.
  intros [Hdir Hobj]. split; [exact Hdir|].
  destruct (loaded_config (config_file w)) as [d|]; [exists d; reflexivity|].
  exfalso. exact (Hobj eq_refl).
Qed.

Lemma set_window_position_run (w : world) (x y : Z) (d : list (string * cfgval)) :
  dir_ok (env w) = true ->
  loaded_config (config_file w) = CfgObject d ->
  set_window_position x y w
  = (Ok tt,
     if disk_writable (env w)
     then with_config
            (Holds (CfgObject
                      (cfg_update "window_position"
                         (CfgVal (PyList [PyInt x; PyInt y])) d))) w
     else failed_config_write w).
Proof.
  intros Hdir Hd. unfold set_window_position, bind.
  rewrite read_config_run by exact Hdir. rewrite Hd. unfold lift. cbn [cfg_setitem].
  unfold _write_config, _get_config_path, _ensure_config_dir, dump_config. run_py.
  rewrite Hdir. destruct (disk_writable (env w)); reflexivity.
Qed.

Lemma get_window_position_same (w w' : world) (d d' : list (string * cfgval)) :
  dir_ok (env w) = true -> dir_ok (env w') = true ->
  loaded_config (config_file w) = CfgObject d ->
  loaded_config (config_file w') = CfgObject d' ->
  cfg_assoc "window_position" d = cfg_assoc "window_position" d' ->
  fst (get_window_position w') = fst (get_window_position w).
Proof.
  intros Hdir Hdir' Hd Hd' Heq. unfold get_window_position, bind.
  rewrite !read_config_run by assumption. rewrite Hd, Hd'. unfold lift.
  cbn [cfg_get]. rewrite Heq.
  destruct (cfg_assoc "window_position" d') as [[q|[| | | |l|]]|]; try reflexivity.
  destruct (Nat.eqb (length l) 2 && forallb isinstance_int l); [|reflexivity].
  destruct l as [|a [|b l]]; reflexivity.
Qed.

(** X1.  Stamping the refresh time and reading it back gives the stamp;
    the saved window position and the cache file are not touched. *)
Theorem stamp_round_trip (ts : Q) (w : world) :
  config_usable w ->
  disk_writable (env w) = true ->
  fst (get_last_pro_update (snd (set_last_pro_update ts w))) = Ok ts /\
  fst (get_window_position (snd (set_last_pro_update ts w)))
  = fst (get_window_position w) /\
  cache_file (snd (set_last_pro_update ts w)) = cache_file w.
Proof.
  intros Hu Hwr. destruct (config_usable_object _ Hu) as (Hdir & d & Hd).
  rewrite (set_last_pro_update_run _ _ _ Hdir Hd), Hwr. cbn [snd].
  split; [|split; [|reflexivity]].
  - erewrite get_last_pro_update_run; [|exact Hdir|reflexivity].
    cbn [fst]. unfold stamp_of. rewrite cfg_assoc_update. reflexivity.
  - eapply get_window_position_same; [exact Hdir|exact Hdir|exact Hd|reflexivity|].
    symmetry. apply cfg_assoc_update_other. discriminate.
Qed.


(** X3.  With no configuration file, or one that does not parse, the
    stored timestamp reads as 0 and the window position as
    [(None, None)]. *)
Theorem unreadable_config_gives_defaults (w : world) :
  dir_ok (env w) = true ->
  (config_file w = Absent \/ exists raw, config_file w = Garbled raw) ->
  fst (get_last_pro_update w) = Ok 0%Q /\
  fst (get_window_position w) = Ok (PyNone, PyNone).
Proof.
  intros Hdir Hfile.
  assert (Hd : loaded_config (config_file w) = CfgObject [])
    by (destruct Hfile as [->|[raw ->]]; reflexivity).
  split.
  - rewrite (get_last_pro_update_run _ _ Hdir Hd). reflexivity.
  - unfold get_window_position, bind. rewrite read_config_run by exact Hdir.
    rewrite Hd. reflexivity.
Qed.

(** X4.  When [config.json] parses to something that is not an object,
    the getters raise [AttributeError], the setters raise [TypeError]
    without writing, and [get_pro_list] raises before any request. *)
Theorem non_object_config_raises (w : world) (force_refresh : bool)
    (x y : Z) (ts : Q) :
  dir_ok (env w) = true ->
  config_file w = Holds CfgOther ->
  get_last_pro_update w = (Raise AttributeError, w) /\
  get_window_position w = (Raise AttributeError, w) /\
  set_last_pro_update ts w = (Raise TypeError, w) /\
  set_window_position x y w = (Raise TypeError, w) /\
  get_pro_list force_refresh w = (Raise AttributeError, w).
Proof.
  intros Hdir Hfile.
  assert (Hget : get_last_pro_update w = (Raise AttributeError, w)).
  { unfold get_last_pro_update, bind. rewrite read_config_run by exact Hdir.
    rewrite Hfile. reflexivity. }
  split; [exact Hget|]. split; [|split; [|split]].
  - unfold get_window_position, bind. rewrite read_config_run by exact Hdir.
    rewrite Hfile. reflexivity.
  - unfold set_last_pro_update, bind. rewrite read_config_run by exact Hdir.
    rewrite Hfile. reflexivity.
  - unfold set_window_position, bind. rewrite read_config_run by exact Hdir.
    rewrite Hfile. reflexivity.
  - apply get_pro_list_raises. rewrite Hget. reflexivity.
Qed.

(** X5.  When the files cannot be opened for writing, the three writers
    return normally and leave the cache file and the configuration file
    as they were: the failure is swallowed. *)
Theorem unwritable_disk_is_silent (w : world) (pro_map : gmap Z string)
    (x y : Z) (ts : Q) :
  config_usable w ->
  disk_writable (env w) = false ->
  disk_failure (env w) = OpenFails ->
  _write_cache pro_map w = (Ok tt, w) /\
  set_last_pro_update ts w = (Ok tt, w) /\
  set_window_position x y w = (Ok tt, w).
Proof.
  intros Hu Hwr Hopen. destruct (config_usable_object _ Hu) as (Hdir & d & Hd).
  rewrite (write_cache_run _ _ Hdir), (set_last_pro_update_run _ _ _ Hdir Hd),
    (set_window_position_run _ _ _ _ Hdir Hd), Hwr.
  unfold failed_cache_write, failed_config_write. rewrite Hopen.
  repeat split.
Qed.

(** X24.  When a write fails in the dump, after the open has emptied
    the file, the writers still return normally, but the old content is
    lost: the cache then reads as the empty map, and the configuration
    as one with timestamp 0 and no window position. *)
Theorem failed_dump_loses_the_file (w : world) (pro_map : gmap Z string)
    (ts : Q) (written : string) :
  config_usable w ->
  disk_writable (env w) = false ->
  disk_failure (env w) = DumpFails written ->
  fst (_write_cache pro_map w) = Ok tt /\
  fst (_read_cache (snd (_write_cache pro_map w))) = Ok ∅ /\
  fst (set_last_pro_update ts w) = Ok tt /\
  fst (get_last_pro_update (snd (set_last_pro_update ts w))) = Ok 0%Q /\
  fst (get_window_position (snd (set_last_pro_update ts w))) = Ok (PyNone, PyNone).
Proof.
  intros Hu Hwr Hdump. destruct (config_usable_object _ Hu) as (Hdir & d & Hd).
  rewrite (write_cache_run _ _ Hdir), (set_last_pro_update_run _ _ _ Hdir Hd), Hwr.
  unfold failed_cache_write, failed_config_write. rewrite Hdump. cbn [fst snd].
  split; [reflexivity|]. split; [|split; [reflexivity|split]].
  - unfold _read_cache, _get_cache_path, _ensure_config_dir. run_py.
    rewrite Hdir. reflexivity.
  - erewrite get_last_pro_update_run; [|exact Hdir|reflexivity]. reflexivity.
  - unfold get_window_position, bind. rewrite read_config_run by exact Hdir.
    reflexivity.
Qed.

(** ** Reading the cache *)

Lemma int_keyed_bad_key (items : list (string * pyval)) (k : string) (v : pyval) :
  In (k, v) items ->
  int_of_literal k = None ->
  forall acc, exists e, int_keyed items acc = Raise e.
Proof.
  induction items as [|[k0 v0] items IH]; intros Hin Hbad acc; [destruct Hin|].
  cbn [int_keyed py_int].
  destruct Hin as [Heq|Hin].
  - injection Heq as -> ->. rewrite Hbad. eexists; reflexivity.
  - destruct (int_of_literal k0) as [z|]; cbn [rbind]; [|eexists; reflexivity].
    apply IH; assumption.
Qed.

(** X7.  The cache reads as the empty map when the file is missing, is
    not JSON, holds a JSON value that is not an object, or holds an object
    with one key that is not an integer literal: one bad key discards the
    other entries too. *)
Theorem read_cache_degrades_to_empty (w : world) :
  dir_ok (env w) = true ->
  (cache_file w = Absent \/
   (exists raw, cache_file w = Garbled raw) \/
   (exists doc, cache_file w = Holds doc /\ isinstance_dict doc = false) \/
   (exists items k v, cache_file w = Holds (PyDict items) /\
                      In (k, v) items /\ int_of_literal k = None)) ->
  _read_cache w = (Ok ∅, w).
Proof.
  intros Hdir Hcases.
  unfold _read_cache, _get_cache_path, _ensure_config_dir. run_py. rewrite Hdir.
  destruct Hcases as [->|[[raw ->]|[(doc & -> & Hdoc)|(items & k & v & -> & Hin & Hbad)]]];
    simpl; try reflexivity.
  - destruct doc; try reflexivity. discriminate Hdoc.
  - destruct (int_keyed_bad_key _ _ _ Hin Hbad ∅) as [e ->]. reflexivity.
Qed.

(** ** Parsing the downloaded records *)

Lemma pro_item_raises (item : pyval) (e : exn) :
  pro_item item = Raise e ->
  existsb (subclass e) [KeyError; ValueError; TypeError] = true.
Proof.
  unfold pro_item.
  destruct item; try (intros [= <-]; reflexivity).
  cbn [py_getitem].
  destruct (assoc "UserID" entries) as [u|]; cbn [rbind]; [|intros [= <-]; reflexivity].
  destruct u as [| b | z | s | l | d]; cbn [py_int rbind];
    try (intros [= <-]; reflexivity).
  - destruct (assoc "Name" entries); cbn [rbind]; [discriminate|intros [= <-]; reflexivity].
  - destruct (assoc "Name" entries); cbn [rbind]; [discriminate|intros [= <-]; reflexivity].
  - destruct (int_of_literal s); cbn [rbind]; [|intros [= <-]; reflexivity].
    destruct (assoc "Name" entries); cbn [rbind]; [discriminate|intros [= <-]; reflexivity].
Qed.

(** ** How calls of [get_pro_list] compose *)

Lemma stale_after_epoch (now : Q) :
  (86400 < now)%Q -> Qgtb (now - 0)%Q refresh_interval = true.
Proof.
  intros H. apply Qgtb_true. rewrite refresh_interval_seconds.
  unfold Qminus. change (- 0)%Q with 0%Q. rewrite Qplus_0_r. exact H.
Qed.

(** X11.  First run: with no configuration file (or an unreadable one)
    and a clock past 86400, an unforced call already makes a request. *)
Theorem first_run_fetches (w : world) :
  dir_ok (env w) = true ->
  (config_file w = Absent \/ exists raw, config_file w = Garbled raw) ->
  (86400 < clock (env w))%Q ->
  http_requests (snd (get_pro_list false w)) = S (http_requests w).
Proof.
  intros Hdir Hfile Hclock.
  assert (Hd : loaded_config (config_file w) = CfgObject [])
    by (destruct Hfile as [->|[raw ->]]; reflexivity).
  assert (Hl : fst (get_last_pro_update w) = Ok 0%Q)
    by (rewrite (get_last_pro_update_run _ _ Hdir Hd); reflexivity).
  assert (Hc : false || Qgtb (clock (env w) - 0)%Q refresh_interval = true)
    by (apply stale_after_epoch; exact Hclock).
  destruct (downloaded (remote (env w))) as [m|e] eqn:Hdl.
  - destruct (get_pro_list_refreshed_state _ _ _ _ Hl Hc Hdl) as (d & _ & Hs).
    rewrite Hs. apply after_refresh_keeps.
  - rewrite (get_pro_list_failed _ _ _ _ Hl Hc Hdl), read_cache_frame. reflexivity.
Qed.

Lemma fresh_at_stamp (now : Q) : Qgtb (now - now)%Q refresh_interval = false.
Proof.
  apply Qgtb_false. unfold Qminus. rewrite Qplus_opp_r.
  rewrite refresh_interval_seconds. discriminate.
Qed.

(** The world a completed download leaves on a writable disk. *)
Lemma refreshed_world (force_refresh : bool) (w : world) (last : Q)
    (pro_map : gmap Z string) :
  fst (get_last_pro_update w) = Ok last ->
  force_refresh || Qgtb (clock (env w) - last)%Q refresh_interval = true ->
  downloaded (remote (env w)) = Ok pro_map ->
  disk_writable (env w) = true ->
  exists d,
    snd (get_pro_list force_refresh w)
    = with_config
        (Holds (CfgObject (cfg_update "last_pro_update" (CfgFloat (clock (env w))) d)))
        (with_cache (Holds (string_keyed pro_map)) (with_request w)).
Proof.
  intros Hl Hc Hdl Hwr.
  destruct (get_pro_list_refreshed_state _ _ _ _ Hl Hc Hdl) as (d & _ & Hs).
  exists d. rewrite Hs. unfold after_refresh. rewrite Hwr. reflexivity.
Qed.

(** X12.  After a completed download on a writable disk, an unforced
    call at the same clock reading returns the downloaded map from the
    cache and makes no second request: the world stays as the first call
    left it. *)
Theorem refresh_then_reuse (force_refresh : bool) (w : world) (last : Q)
    (pro_map : gmap Z string) :
  fst (get_last_pro_update w) = Ok last ->
  force_refresh || Qgtb (clock (env w) - last)%Q refresh_interval = true ->
  downloaded (remote (env w)) = Ok pro_map ->
  disk_writable (env w) = true ->
  get_pro_list false (snd (get_pro_list force_refresh w))
  = (Ok pro_map, snd (get_pro_list force_refresh w)).
Proof.
  intros Hl Hc Hdl Hwr.
  destruct (get_last_pro_update_ok _ _ Hl) as (Hdir & _).
  destruct (refreshed_world _ _ _ _ Hl Hc Hdl Hwr) as [d Hw1].
  rewrite Hw1. set (w1 := with_config _ _).
  assert (Hl1 : fst (get_last_pro_update w1) = Ok (clock (env w))).
  { erewrite get_last_pro_update_run; [|exact Hdir|reflexivity].
    cbn [fst]. unfold stamp_of. rewrite cfg_assoc_update. reflexivity. }
  rewrite (get_pro_list_unfold _ _ _ Hl1).
  change (clock (env w1)) with (clock (env w)). rewrite fresh_at_stamp. cbn [orb].
  destruct (read_cache_state w1) as [r Hr]. rewrite Hr. f_equal.
  assert (Hread : fst (_read_cache w1) = Ok pro_map)
    by (apply read_cache_string_keyed; [exact Hdir|reflexivity]).
  rewrite Hr in Hread. exact Hread.
Qed.

(** X13.  Offline after a refresh: once a download has been persisted,
    a later call, forced or not, in any surroundings with a usable
    directory where the download fails returns the persisted map. *)
Theorem offline_after_refresh (force_refresh force_later : bool) (w : world)
    (last : Q) (pro_map : gmap Z string) (later : environment) (e : exn) :
  fst (get_last_pro_update w) = Ok last ->
  force_refresh || Qgtb (clock (env w) - last)%Q refresh_interval = true ->
  downloaded (remote (env w)) = Ok pro_map ->
  disk_writable (env w) = true ->
  dir_ok later = true ->
  downloaded (remote later) = Raise e ->
  fst (get_pro_list force_later (with_env later (snd (get_pro_list force_refresh w))))
  = Ok pro_map.
Proof.
  intros Hl Hc Hdl Hwr Hdir' Hdl'.
  destruct (refreshed_world _ _ _ _ Hl Hc Hdl Hwr) as [d Hw1].
  rewrite Hw1. set (w1 := with_env later _).
  assert (Hl1 : fst (get_last_pro_update w1) = Ok (clock (env w))).
  { erewrite get_last_pro_update_run; [|exact Hdir'|reflexivity].
    cbn [fst]. unfold stamp_of. rewrite cfg_assoc_update. reflexivity. }
  assert (Hread : fst (_read_cache w1) = Ok pro_map)
    by (apply read_cache_string_keyed; [exact Hdir'|reflexivity]).
  destruct (force_later || Qgtb (clock (env w1) - clock (env w))%Q refresh_interval)
    eqn:Hc1.
  - rewrite (get_pro_list_failed _ _ _ _ Hl1 Hc1 Hdl'), read_cache_with_request.
    exact Hread.
  - rewrite (get_pro_list_unfold _ _ _ Hl1), Hc1. exact Hread.
Qed.

(** X14.  No back-off: when the map is stale and the download fails, the
    timestamp stays, so the next unforced call in the same surroundings
    makes a request again. *)
Theorem failed_refresh_is_retried (w : world) (last : Q) (e : exn) :
  fst (get_last_pro_update w) = Ok last ->
  (86400 < clock (env w) - last)%Q ->
  downloaded (remote (env w)) = Raise e ->
  http_requests (snd (get_pro_list false (snd (get_pro_list false w))))
  = S (S (http_requests w)).
Proof.
  intros Hl Hstale Hdl.
  assert (Hc : false || Qgtb (clock (env w) - last)%Q refresh_interval = true)
    by (apply Qgtb_true; rewrite refresh_interval_seconds; exact Hstale).
  destruct (get_last_pro_update_ok _ _ Hl) as (Hdir & d & Hd & Hstamp).
  rewrite (get_pro_list_failed _ _ _ _ Hl Hc Hdl), read_cache_frame.
  assert (Hl1 : fst (get_last_pro_update (with_request w)) = Ok last)
    by (erewrite get_last_pro_update_run; [|exact Hdir|exact Hd];
        cbn [fst]; rewrite Hstamp; reflexivity).
  rewrite (get_pro_list_failed _ _ _ _ Hl1 Hc Hdl), read_cache_frame. reflexivity.
Qed.

(** X15.  Best-effort persistence: on a refresh where the files cannot
    be opened for writing, a completed download changes neither file; a
    non-empty downloaded map is still returned, and an empty one makes the
    call return what the old cache holds. *)
Theorem refresh_on_unwritable_disk (force_refresh : bool) (w : world) (last : Q)
    (pro_map : gmap Z string) :
  fst (get_last_pro_update w) = Ok last ->
  force_refresh || Qgtb (clock (env w) - last)%Q refresh_interval = true ->
  downloaded (remote (env w)) = Ok pro_map ->
  disk_writable (env w) = false ->
  disk_failure (env w) = OpenFails ->
  snd (get_pro_list force_refresh w) = with_request w /\
  fst (get_pro_list force_refresh w)
  = if bool_decide (pro_map = ∅) then fst (_read_cache w) else Ok pro_map.
Proof.
  intros Hl Hc Hdl Hwr Hopen.
  destruct (get_pro_list_refreshed _ _ _ _ Hl Hc Hdl) as (d & _ & Hg).
  assert (Hw : after_refresh pro_map d w = with_request w).
  { unfold after_refresh. rewrite Hwr.
    unfold failed_cache_write. change (env (with_request w)) with (env w).
    rewrite Hopen. unfold failed_config_write.
    change (env (with_request w)) with (env w). rewrite Hopen. reflexivity. }
  rewrite Hw in Hg. rewrite Hg.
  case_bool_decide.
  - rewrite read_cache_frame, read_cache_with_request. split; reflexivity.
  - split; reflexivity.
Qed.

(** X25.  On a refresh whose writes fail in the dump, after the open, a
    completed download leaves both files without a JSON document: the
    call still returns the downloaded map, but the old cache is gone and
    the stored timestamp reads as 0 afterwards. *)
Theorem refresh_with_failing_dump (force_refresh : bool) (w : world) (last : Q)
    (pro_map : gmap Z string) (written : string) :
  fst (get_last_pro_update w) = Ok last ->
  force_refresh || Qgtb (clock (env w) - last)%Q refresh_interval = true ->
  downloaded (remote (env w)) = Ok pro_map ->
  disk_writable (env w) = false ->
  disk_failure (env w) = DumpFails written ->
  fst (get_pro_list force_refresh w) = Ok pro_map /\
  cache_file (snd (get_pro_list force_refresh w)) = Garbled written /\
  config_file (snd (get_pro_list force_refresh w)) = Garbled written /\
  fst (_read_cache (snd (get_pro_list force_refresh w))) = Ok ∅ /\
  fst (get_last_pro_update (snd (get_pro_list force_refresh w))) = Ok 0%Q.
Proof.
  intros Hl Hc Hdl Hwr Hdump.
  destruct (get_last_pro_update_ok _ _ Hl) as (Hdir & _).
  destruct (get_pro_list_refreshed _ _ _ _ Hl Hc Hdl) as (d & _ & Hg).
  destruct (get_pro_list_refreshed_state _ _ _ _ Hl Hc Hdl) as (d' & _ & Hs).
  assert (Hw : forall d0, after_refresh pro_map d0 w
               = with_config (Garbled written)
                   (with_cache (Garbled written) (with_request w))).
  { intros d0. unfold after_refresh. rewrite Hwr.
    unfold failed_cache_write. change (env (with_request w)) with (env w).
    rewrite Hdump. unfold failed_config_write.
    change (env (with_cache (Garbled written) (with_request w))) with (env w).
    rewrite Hdump. reflexivity. }
  rewrite Hs, Hw. rewrite Hw in Hg.
  set (w1 := with_config _ _) in *.
  assert (Hread : _read_cache w1 = (Ok ∅, w1)).
  { unfold _read_cache, _get_cache_path, _ensure_config_dir. run_py.
    rewrite Hdir. reflexivity. }
  split; [|split; [reflexivity|split; [reflexivity|split]]].
  - rewrite Hg. case_bool_decide as Hempty; [|reflexivity].
    rewrite Hread, Hempty. reflexivity.
  - rewrite Hread. reflexivity.
  - erewrite get_last_pro_update_run; [|exact Hdir|reflexivity]. reflexivity.
Qed.

(** ** The two lookups *)

(** X16.  A user for whom [is_pro_driver] answers [False] gets the empty
    name from [get_pro_name] in the same world. *)
Theorem not_pro_has_no_name (user_id : pyval) (w : world) :
  fst (is_pro_driver user_id w) = Ok false ->
  fst (get_pro_name user_id w) = Ok EmptyString.
Proof.
  unfold is_pro_driver, get_pro_name, bind.
  destruct (get_pro_list false w) as [[m|e] w1]; [|discriminate].
  unfold lift. destruct (py_int user_id) as [uid|e]; [|discriminate].
  cbn. intros [= H]. apply bool_decide_eq_false in H.
  destruct (m !! uid) as [name|]; [|reflexivity].
  exfalso. apply H. eexists; reflexivity.
Qed.

(** X17.  After [_write_cache] of a map whose keys [str] can print,
    while the stored timestamp is no more than 86400 seconds old,
    [is_pro_driver] answers whether the integer is a key of that map and
    [get_pro_name] gives its name, the empty string for a missing key. *)
Theorem lookups_follow_written_cache (pro_map : gmap Z string) (uid : Z)
    (w : world) (last : Q) :
  fst (get_last_pro_update w) = Ok last ->
  (clock (env w) - last <= 86400)%Q ->
  disk_writable (env w) = true ->
  printable_keys pro_map = true ->
  fst (is_pro_driver (PyInt uid) (snd (_write_cache pro_map w)))
  = Ok (bool_decide (is_Some (pro_map !! uid))) /\
  fst (get_pro_name (PyInt uid) (snd (_write_cache pro_map w)))
  = Ok (default EmptyString (pro_map !! uid)).
Proof.
  intros Hl Hfresh Hwr _.
  destruct (get_last_pro_update_ok _ _ Hl) as (Hdir & d & Hd & Hstamp).
  rewrite (write_cache_run _ _ Hdir), Hwr. cbn [snd].
  set (w1 := with_cache _ w).
  assert (Hl1 : fst (get_last_pro_update w1) = Ok last)
    by (erewrite get_last_pro_update_run; [|exact Hdir|exact Hd];
        cbn [fst]; exact Hstamp).
  assert (Hc : false || Qgtb (clock (env w1) - last)%Q refresh_interval = false)
    by (apply Qgtb_false; rewrite refresh_interval_seconds; exact Hfresh).
  assert (Hg : get_pro_list false w1 = (Ok pro_map, w1)).
  { rewrite (get_pro_list_unfold _ _ _ Hl1), Hc.
    destruct (read_cache_state w1) as [r Hr]. rewrite Hr. f_equal.
    assert (Hread : fst (_read_cache w1) = Ok pro_map)
      by (apply read_cache_string_keyed; [exact Hdir|reflexivity]).
    rewrite Hr in Hread. exact Hread. }
  unfold is_pro_driver, get_pro_name, bind. rewrite Hg. split; reflexivity.
Qed.

(** ** The ticks of the listener *)

Lemma drivers_read_value (w : world) :
  try_except
    (do driver_info <- ir_getitem "DriverInfo" ;
     if isinstance_dict driver_info
     then lift (py_get driver_info "Drivers" (PyList []))
     else ret (PyList []))
    (fun _ => ret (PyList [])) w
  = (Ok (session_drivers (ir (env w))), w).
Proof.
  unfold session_drivers, try_except, ir_getitem, bind, telemetry, ret, lift.
  destruct (assoc "DriverInfo" (ir_vars (ir (env w)))) as [info|]; [|reflexivity].
  destruct info as [| b | z | s | l | d]; try reflexivity.
  cbn [isinstance_dict py_get]. destruct (assoc "Drivers" d); reflexivity.
Qed.

Lemma loop_body_active_eval (w : world) :
  connected (env w) = true ->
  spec_active_flag (ir (env w)) = true ->
  loop_body w
  = match get_pro_list false (with_signal (session_active true) w) with
    | (Ok _, w2) =>
        match py_iter (session_drivers (ir (env w))) with
        | Ok _ => (Ok tt, with_signal (drivers_updated []) w2)
        | Raise e => (Raise e, w2)
        end
    | (Raise e, w2) => (Raise e, w2)
    end.
Proof.
  intros Hc Hflag. rewrite (loop_body_connected _ Hc). cbv zeta. rewrite Hflag.
  unfold bind at 1. unfold emit at 1.
  set (w1 := with_signal (session_active true) w).
  unfold bind at 1. unfold bind at 1. rewrite (drivers_read_value w1).
  change (ir (env w1)) with (ir (env w)).
  unfold bind at 1.
  destruct (get_pro_list false w1) as [[pro_map|e] w2]; [|reflexivity].
  unfold bind at 1. unfold lift at 1.
  destruct (py_iter (session_drivers (ir (env w)))) as [drvs|e]; [|reflexivity].
  rewrite collect_pro_drivers_nothing. reflexivity.
Qed.

Lemma get_pro_list_requests (force_refresh : bool) (w : world) :
  http_requests (snd (get_pro_list force_refresh w)) = http_requests w \/
  http_requests (snd (get_pro_list force_refresh w)) = S (http_requests w).
Proof.
  destruct (fst (get_last_pro_update w)) as [last|e] eqn:Hl.
  - destruct (force_refresh || Qgtb (clock (env w) - last)%Q refresh_interval) eqn:Hc.
    + right. destruct (downloaded (remote (env w))) as [m|e] eqn:Hdl.
      * destruct (get_pro_list_refreshed_state _ _ _ _ Hl Hc Hdl) as (d & _ & Hs).
        rewrite Hs. apply after_refresh_keeps.
      * rewrite (get_pro_list_failed _ _ _ _ Hl Hc Hdl), read_cache_frame.
        reflexivity.
    + left. rewrite (get_pro_list_unfold _ _ _ Hl), Hc, read_cache_frame.
      reflexivity.
  - left. rewrite (get_pro_list_raises _ _ _ Hl). reflexivity.
Qed.

(** X18.  A tick that is not active (source not connected, or not racing
    on track) changes nothing but the signals: no request is made and
    the cache and configuration files are not touched. *)
Theorem idle_tick_touches_nothing (w : world) :
  active_tick (env w) = false ->
  http_requests (snd (loop_iteration w)) = http_requests w /\
  cache_file (snd (loop_iteration w)) = cache_file w /\
  config_file (snd (loop_iteration w)) = config_file w /\
  emitted (snd (loop_iteration w))
  = emitted w ++ session_active false
                 :: (if connected (env w) then [drivers_updated []] else []).
Proof.
  unfold active_tick. intros Hidle. unfold loop_iteration, try_except.
  destruct (connected (env w)) eqn:Hc.
  - cbn [andb] in Hidle. rewrite (loop_body_inactive _ Hc Hidle). cbn.
    rewrite <- app_assoc. repeat split.
  - rewrite (loop_body_disconnected _ Hc). cbn. repeat split.
Qed.

(** X19.  What an active tick emits: the flag [true], followed by an
    entry list, which is empty, exactly when the [get_pro_list] call of
    the tick returns and the session's Drivers value can be iterated;
    otherwise the flag alone. *)
Theorem active_tick_signals (w : world) :
  active_tick (env w) = true ->
  emitted (snd (loop_iteration w))
  = emitted w
    ++ session_active true
       :: match fst (get_pro_list false (with_signal (session_active true) w)),
                py_iter (session_drivers (ir (env w))) with
          | Ok _, Ok _ => [drivers_updated []]
          | _, _ => []
          end.
Proof.
  unfold active_tick. intros Hact. apply andb_true_iff in Hact as [Hc Hflag].
  unfold loop_iteration, try_except. rewrite (loop_body_active_eval _ Hc Hflag).
  set (w1 := with_signal (session_active true) w).
  pose proof (keeps_quiet_get_pro_list false w1) as [_ Hem].
  destruct (get_pro_list false w1) as [[m|e] w2]; cbn [fst snd] in *.
  - destruct (py_iter (session_drivers (ir (env w)))) as [drvs|e]; cbn.
    + rewrite Hem. cbn. rewrite <- app_assoc. reflexivity.
    + exact Hem.
  - exact Hem.
Qed.

Lemma loop_iteration_requests (w : world) :
  http_requests (snd (loop_iteration w))
  <= http_requests w + (if active_tick (env w) then 1 else 0).
Proof.
  unfold active_tick, loop_iteration, try_except.
  destruct (connected (env w)) eqn:Hc.
  - destruct (spec_active_flag (ir (env w))) eqn:Hflag; cbn [andb].
    + rewrite (loop_body_active_eval _ Hc Hflag).
      set (w1 := with_signal (session_active true) w).
      pose proof (get_pro_list_requests false w1) as Hreq.
      change (http_requests w1) with (http_requests w) in Hreq.
      destruct (get_pro_list false w1) as [[m|e] w2]; cbn [snd] in Hreq.
      * destruct (py_iter (session_drivers (ir (env w)))); cbn; lia.
      * cbn. lia.
    + rewrite (loop_body_inactive _ Hc Hflag). cbn. lia.
  - rewrite (loop_body_disconnected _ Hc). cbn. lia.
Qed.

(** X20.  Over a whole run the listener makes at most one HTTP request
    per active tick and none on the other ticks. *)
Theorem run_requests_bounded (ticks : list environment) (w : world) :
  http_requests (snd (_run ticks w))
  <= http_requests w + length (filter (fun t => active_tick t = true) ticks).
Proof.
  revert w. induction ticks as [|t rest IH]; intros w.
  - rewrite run_nil. cbn. lia.
  - rewrite run_cons. etransitivity; [apply IH|].
    pose proof (loop_iteration_requests (with_env t w)) as Hit.
    change (env (with_env t w)) with t in Hit.
    change (http_requests (with_env t w)) with (http_requests w) in Hit.
    rewrite filter_cons. destruct (active_tick t) eqn:Hact.
    + rewrite decide_True by reflexivity. cbn [length]. lia.
    + rewrite decide_False by discriminate. lia.
Qed.

Lemma run_signals_from (ticks : list environment) :
  forall w, exists new,
    emitted (snd (_run ticks w)) = emitted w ++ new /\
    active_flags new = map active_tick ticks /\
    Forall (fun s => forall l, s = drivers_updated l -> l = []) new /\
    length new <= 2 * length ticks.
Proof.
  induction ticks as [|t rest IH]; intros w.
  - exists []. rewrite run_nil, app_nil_r. repeat split; [constructor|cbn; lia].
  - rewrite run_cons.
    destruct (loop_iteration_signals (with_env t w)) as (_ & _ & tail & Hem & Htail).
    destruct (IH (snd (loop_iteration (with_env t w)))) as (new & Hnew & Hfl & Hall & Hlen).
    change (env (with_env t w)) with t in Hem.
    change (emitted (with_env t w)) with (emitted w) in Hem.
    exists (session_active (active_tick t) :: tail ++ new).
    rewrite Hnew, Hem, <- app_assoc. split; [reflexivity|]. split; [|split].
    + cbn [active_flags map]. rewrite active_flags_app, (active_flags_tail _ Htail), Hfl.
      reflexivity.
    + constructor; [discriminate|]. apply Forall_app. split; [|exact Hall].
      destruct Htail as [->| ->]; repeat constructor. intros l [= <-]. reflexivity.
    + cbn [length]. rewrite length_app.
      destruct Htail as [->| ->]; cbn [length]; lia.
Qed.

(** X21.  Every run of the listener ends normally, whatever the ticks
    bring; it emits one active flag per tick, true exactly on the active
    ticks, at most one entry list per tick, and every entry list it ever
    emits is empty. *)
Theorem run_signals (ticks : list environment) (w : world) :
  fst (_run ticks w) = Ok tt /\
  exists new,
    emitted (snd (_run ticks w)) = emitted w ++ new /\
    active_flags new = map active_tick ticks /\
    Forall (fun s => forall l, s = drivers_updated l -> l = []) new /\
    length new <= 2 * length ticks.
Proof.
  split; [apply run_never_raises|apply run_signals_from].
Qed.

(** ** A body that is not an array of records *)

Lemma collect_pro_map_skips (items : list pyval) :
  (forall item, In item items -> exists e, pro_item item = Raise e) ->
  forall acc, collect_pro_map items acc = Ok acc.
Proof.
  induction items as [|item items IH]; intros Hbad acc; [reflexivity|].
  cbn [collect_pro_map].
  destruct (Hbad item (or_introl eq_refl)) as [e He]. rewrite He.
  rewrite (pro_item_raises _ _ He). apply IH.
  intros it Hin. apply Hbad. right. exact Hin.
Qed.

Lemma downloaded_object_body (status : Z) (d : list (string * pyval)) :
  raise_for_status status = Ok tt ->
  downloaded (Response status (Some (PyDict d))) = Ok ∅.
Proof.
  intros Hst. unfold downloaded. rewrite Hst. cbn [rbind response_json py_iter].
  apply collect_pro_map_skips. intros item Hin.
  apply in_map_iff in Hin as ([k v] & <- & _). eexists; reflexivity.
Qed.

(** X22.  A response that passes [raise_for_status] with a JSON object
    as body, whatever is in it, counts as a completed download of no
    records: on a refresh with a writable disk the cache file is
    overwritten by the empty object and the call returns the empty map. *)
Theorem object_body_wipes_cache (force_refresh : bool) (w : world) (last : Q)
    (status : Z) (d : list (string * pyval)) :
  fst (get_last_pro_update w) = Ok last ->
  force_refresh || Qgtb (clock (env w) - last)%Q refresh_interval = true ->
  remote (env w) = Response status (Some (PyDict d)) ->
  raise_for_status status = Ok tt ->
  disk_writable (env w) = true ->
  cache_file (snd (get_pro_list force_refresh w)) = Holds (PyDict []) /\
  fst (get_pro_list force_refresh w) = Ok ∅.
Proof.
  intros Hl Hc Hremote Hst Hwr.
  assert (Hdl : downloaded (remote (env w)) = Ok ∅)
    by (rewrite Hremote; apply downloaded_object_body; exact Hst).
  destruct (get_last_pro_update_ok _ _ Hl) as (Hdir & _).
  destruct (get_pro_list_refreshed _ _ _ _ Hl Hc Hdl) as (d0 & _ & Hg).
  unfold after_refresh in Hg. rewrite Hwr in Hg. rewrite Hg.
  rewrite bool_decide_eq_true_2 by reflexivity.
  rewrite read_cache_frame. split; [reflexivity|].
  apply read_cache_string_keyed; [exact Hdir|reflexivity].
Qed.

(** X23.  The two lookups take the decimal text of an identity as they
    take the integer: for [k] of at most 4300 digits, [is_pro_driver(str(k))]
    and [get_pro_name(str(k))] compute what they compute for [k]. *)
Theorem lookups_accept_decimal_text (uid : Z) (w : world) :
  printable_int uid = true ->
  is_pro_driver (PyStr (str_of_int uid)) w = is_pro_driver (PyInt uid) w /\
  get_pro_name (PyStr (str_of_int uid)) w = get_pro_name (PyInt uid) w.
Proof.
  intros _. unfold is_pro_driver, get_pro_name. rewrite py_int_str_of_int.
  split; reflexivity.
Qed.

(** ** The further properties at concrete worlds *)

Lemma stamp_round_trip_witness :
  config_usable filtering_world /\
  fst (get_last_pro_update (snd (set_last_pro_update 1234 filtering_world)))
  = Ok 1234%Q /\
  fst (get_window_position (snd (set_last_pro_update 1234 filtering_world)))
  = fst (get_window_position filtering_world) /\
  cache_file (snd (set_last_pro_update 1234 filtering_world))
  = cache_file filtering_world.
Proof.
  split; [split; [reflexivity|discriminate]|].
  apply (stamp_round_trip 1234 filtering_world);
    [split; [reflexivity|discriminate]|reflexivity].
Defined.


Lemma unreadable_config_gives_defaults_witness :
  config_file first_run_world = Absent /\
  fst (get_last_pro_update first_run_world) = Ok 0%Q /\
  fst (get_window_position first_run_world) = Ok (PyNone, PyNone).
Proof.
  split; [reflexivity|].
  apply (unreadable_config_gives_defaults first_run_world);
    [reflexivity|left; reflexivity].
Defined.

Lemma non_object_config_raises_witness :
  config_file array_config_world = Holds CfgOther /\
  get_last_pro_update array_config_world = (Raise AttributeError, array_config_world) /\
  get_window_position array_config_world = (Raise AttributeError, array_config_world) /\
  set_last_pro_update 5 array_config_world = (Raise TypeError, array_config_world) /\
  set_window_position 1 2 array_config_world = (Raise TypeError, array_config_world) /\
  get_pro_list true array_config_world = (Raise AttributeError, array_config_world).
Proof.
  split; [reflexivity|].
  apply (non_object_config_raises array_config_world true 1 2 5); reflexivity.
Defined.

Lemma unwritable_disk_is_silent_witness :
  disk_writable (env unwritable_world) = false /\
  disk_failure (env unwritable_world) = OpenFails /\
  _write_cache {[1%Z := "Alice"]} unwritable_world = (Ok tt, unwritable_world) /\
  set_last_pro_update 5 unwritable_world = (Ok tt, unwritable_world) /\
  set_window_position 1 2 unwritable_world = (Ok tt, unwritable_world).
Proof.
  split; [reflexivity|]. split; [reflexivity|].
  apply (unwritable_disk_is_silent unwritable_world {[1%Z := "Alice"]} 1 2 5);
    [split; [reflexivity|discriminate]|reflexivity|reflexivity].
Defined.

Lemma failed_dump_loses_the_file_witness :
  cache_file full_disk_world = alice_carol_cache /\
  fst (_write_cache {[1%Z := "Alice"]} full_disk_world) = Ok tt /\
  fst (_read_cache (snd (_write_cache {[1%Z := "Alice"]} full_disk_world))) = Ok ∅ /\
  fst (set_last_pro_update 5 full_disk_world) = Ok tt /\
  fst (get_last_pro_update (snd (set_last_pro_update 5 full_disk_world))) = Ok 0%Q /\
  fst (get_window_position (snd (set_last_pro_update 5 full_disk_world)))
  = Ok (PyNone, PyNone).
Proof.
  split; [reflexivity|].
  apply (failed_dump_loses_the_file full_disk_world {[1%Z := "Alice"]} 5 EmptyString);
    [split; [reflexivity|discriminate]|reflexivity|reflexivity].
Defined.

Lemma read_cache_degrades_to_empty_witness :
  int_of_literal "abc" = None /\
  _read_cache bad_key_world = (Ok ∅, bad_key_world).
Proof.
  split; [reflexivity|].
  apply (read_cache_degrades_to_empty bad_key_world); [reflexivity|].
  right. right. right.
  exists [("1", PyStr "Alice"); ("abc", PyStr "Bob")], "abc", (PyStr "Bob").
  split; [reflexivity|]. split; [right; left; reflexivity|reflexivity].
Defined.

Lemma first_run_fetches_witness :
  config_file first_run_world = Absent /\
  http_requests (snd (get_pro_list false first_run_world))
  = S (http_requests first_run_world).
Proof.
  split; [reflexivity|].
  apply (first_run_fetches first_run_world);
    [reflexivity|left; reflexivity|reflexivity].
Defined.

Lemma refresh_then_reuse_witness :
  get_pro_list false (snd (get_pro_list true good_download_world))
  = (Ok {[1%Z := "Alice"; 3%Z := "Carol"]},
     snd (get_pro_list true good_download_world)).
Proof.
  apply (refresh_then_reuse true good_download_world 900);
    [reflexivity|reflexivity|vm_compute; reflexivity|reflexivity].
Defined.

Lemma offline_after_refresh_witness :
  fst (get_pro_list false
         (with_env (env stale_offline_world)
            (snd (get_pro_list true good_download_world))))
  = Ok {[1%Z := "Alice"; 3%Z := "Carol"]}.
Proof.
  apply (offline_after_refresh true false good_download_world 900
           {[1%Z := "Alice"; 3%Z := "Carol"]} (env stale_offline_world)
           ConnectionError);
    [reflexivity|reflexivity|vm_compute; reflexivity|reflexivity|reflexivity
    |reflexivity].
Defined.

Lemma failed_refresh_is_retried_witness :
  (86400 < clock (env stale_offline_world) - 1000)%Q /\
  http_requests
    (snd (get_pro_list false (snd (get_pro_list false stale_offline_world))))
  = 2.
Proof.
  split; [reflexivity|].
  apply (failed_refresh_is_retried stale_offline_world 1000 ConnectionError);
    reflexivity.
Defined.

Lemma refresh_on_unwritable_disk_witness :
  disk_writable (env unwritable_world) = false /\
  disk_failure (env unwritable_world) = OpenFails /\
  snd (get_pro_list true unwritable_world) = with_request unwritable_world /\
  fst (get_pro_list true unwritable_world)
  = if bool_decide (({[1%Z := "Alice"]} : gmap Z string) = ∅)
    then fst (_read_cache unwritable_world)
    else Ok {[1%Z := "Alice"]}.
Proof.
  split; [reflexivity|]. split; [reflexivity|].
  apply (refresh_on_unwritable_disk true unwritable_world 900 {[1%Z := "Alice"]});
    [reflexivity|reflexivity|vm_compute; reflexivity|reflexivity|reflexivity].
Defined.

Lemma refresh_with_failing_dump_witness :
  cache_file full_disk_world = alice_carol_cache /\
  fst (get_pro_list true full_disk_world) = Ok {[1%Z := "Alice"]} /\
  cache_file (snd (get_pro_list true full_disk_world)) = Garbled EmptyString /\
  config_file (snd (get_pro_list true full_disk_world)) = Garbled EmptyString /\
  fst (_read_cache (snd (get_pro_list true full_disk_world))) = Ok ∅ /\
  fst (get_last_pro_update (snd (get_pro_list true full_disk_world))) = Ok 0%Q.
Proof.
  split; [reflexivity|].
  apply (refresh_with_failing_dump true full_disk_world 900 {[1%Z := "Alice"]}
           EmptyString);
    [reflexivity|reflexivity|vm_compute; reflexivity|reflexivity|reflexivity].
Defined.

Lemma not_pro_has_no_name_witness :
  fst (is_pro_driver (PyInt 2) filtering_world) = Ok false /\
  fst (get_pro_name (PyInt 2) filtering_world) = Ok EmptyString.
Proof.
  assert (H : fst (is_pro_driver (PyInt 2) filtering_world) = Ok false)
    by (vm_compute; reflexivity).
  split; [exact H|].
  apply (not_pro_has_no_name (PyInt 2) filtering_world H).
Defined.

Lemma lookups_follow_written_cache_witness :
  printable_keys {[3%Z := "Carol"]} = true /\
  fst (is_pro_driver (PyInt 3)
         (snd (_write_cache {[3%Z := "Carol"]} first_run_world_stamped)))
  = Ok (bool_decide (is_Some (({[3%Z := "Carol"]} : gmap Z string) !! 3%Z))) /\
  fst (get_pro_name (PyInt 3)
         (snd (_write_cache {[3%Z := "Carol"]} first_run_world_stamped)))
  = Ok (default EmptyString (({[3%Z := "Carol"]} : gmap Z string) !! 3%Z)).
Proof.
  split; [vm_compute; reflexivity|].
  apply (lookups_follow_written_cache {[3%Z := "Carol"]} 3 first_run_world_stamped 900);
    [reflexivity|vm_compute; discriminate|reflexivity|vm_compute; reflexivity].
Defined.

Lemma idle_tick_touches_nothing_witness :
  active_tick (env stale_offline_world) = false /\
  http_requests (snd (loop_iteration stale_offline_world))
  = http_requests stale_offline_world /\
  cache_file (snd (loop_iteration stale_offline_world))
  = cache_file stale_offline_world /\
  config_file (snd (loop_iteration stale_offline_world))
  = config_file stale_offline_world /\
  emitted (snd (loop_iteration stale_offline_world))
  = emitted stale_offline_world
    ++ session_active false
       :: (if connected (env stale_offline_world) then [drivers_updated []] else []).
Proof.
  split; [reflexivity|].
  apply (idle_tick_touches_nothing stale_offline_world). reflexivity.
Defined.

Lemma active_tick_signals_witness :
  active_tick (env null_drivers_world) = true /\
  emitted (snd (loop_iteration null_drivers_world))
  = emitted null_drivers_world
    ++ session_active true
       :: match fst (get_pro_list false
                       (with_signal (session_active true) null_drivers_world)),
                py_iter (session_drivers (ir (env null_drivers_world))) with
          | Ok _, Ok _ => [drivers_updated []]
          | _, _ => []
          end.
Proof.
  split; [reflexivity|].
  apply (active_tick_signals null_drivers_world). reflexivity.
Defined.

Lemma lookups_accept_decimal_text_witness :
  printable_int 42 = true /\
  is_pro_driver (PyStr (str_of_int 42)) filtering_world
  = is_pro_driver (PyInt 42) filtering_world /\
  get_pro_name (PyStr (str_of_int 42)) filtering_world
  = get_pro_name (PyInt 42) filtering_world.
Proof.
  split; [vm_compute; reflexivity|].
  apply (lookups_accept_decimal_text 42 filtering_world). vm_compute. reflexivity.
Defined.

Lemma object_body_wipes_cache_witness :
  cache_file object_body_world = alice_carol_cache /\
  cache_file (snd (get_pro_list true object_body_world)) = Holds (PyDict []) /\
  fst (get_pro_list true object_body_world) = Ok ∅.
Proof.
  split; [reflexivity|].
  apply (object_body_wipes_cache true object_body_world 900 200
           [("error", PyStr "moved")]); reflexivity.
Defined.
